(** * Trace ingestion core of uptrace: span builder, fingerprinter,
      ingress handler and batcher (package [tracing]).

    A shallow embedding of [pkg/tracing] (TraceServiceServer) together with
    the properties of its specification.  Go strings are byte strings and
    are modelled by [string]; Go maps by [gmap]; fixed-width integers by
    [Z] with their wrap-around written out. *)

From Stdlib Require Import ZArith Ascii String List Lia.
From stdpp Require Import base option list strings gmap fin_maps.

Local Open Scope Z_scope.

(** ** Fixed-width integers *)

Module Bits.

Definition u64 (x : Z) : Z := x mod 2 ^ 64.
Definition u8 (x : Z) : Z := x mod 2 ^ 8.

(** Go's conversion [int64(x)] of a [uint64]: same bits, read as
    two's complement. *)
Definition int64 (x : Z) : Z :=
  let y := u64 x in if Z_lt_dec y (2 ^ 63) then y else y - 2 ^ 64.

Definition add64 (a b : Z) : Z := u64 (a + b).
Definition sub64 (a b : Z) : Z := u64 (a - b).
Definition mul64 (a b : Z) : Z := u64 (a * b).

(** [bits.RotateLeft64]. *)
Definition rol64 (x r : Z) : Z :=
  Z.lor (u64 (Z.shiftl x r)) (Z.shiftr x (64 - r)).

Definition byte_of (c : ascii) : Z := Z.of_N (N_of_ascii c).

Fixpoint bytes_of (s : string) : list Z :=
  match s with
  | EmptyString => []
  | String c r => byte_of c :: bytes_of r
  end.

(** [binary.LittleEndian]: the value of a byte sequence, least
    significant byte first. *)
Fixpoint le (bs : list Z) : Z :=
  match bs with
  | [] => 0
  | b :: r => b + 256 * le r
  end.

End Bits.

(** ** github.com/cespare/xxhash/v2

    The streaming digest is modelled by the bytes written so far;
    [Sum64] is XXH64 with seed 0 of these bytes. *)

Module xxhash.
Import Bits.

Definition prime1 : Z := 11400714785074694791.
Definition prime2 : Z := 14029467366897019727.
Definition prime3 : Z := 1609587929392839161.
Definition prime4 : Z := 9650029242287828579.
Definition prime5 : Z := 2870177450012600261.

Definition round (acc input : Z) : Z :=
  mul64 (rol64 (add64 acc (mul64 input prime2)) 31) prime1.

Definition mergeRound (acc val : Z) : Z :=
  add64 (mul64 (Z.lxor acc (round 0 val)) prime1) prime4.

Record lanes := Lanes { v1 : Z; v2 : Z; v3 : Z; v4 : Z }.

Definition lanes0 : lanes :=
  Lanes (add64 prime1 prime2) prime2 0 (sub64 0 prime1).

(** The 32-byte stripes; [n] bounds the number of stripes left. *)
Fixpoint stripes (n : nat) (v : lanes) (b : list Z) : lanes * list Z :=
  match n with
  | O => (v, b)
  | S n' =>
      if decide (32 <= length b)%nat then
        stripes n'
          (Lanes (round (v1 v) (le (take 8 b)))
                 (round (v2 v) (le (take 8 (drop 8 b))))
                 (round (v3 v) (le (take 8 (drop 16 b))))
                 (round (v4 v) (le (take 8 (drop 24 b)))))
          (drop 32 b)
      else (v, b)
  end.

Fixpoint tail8 (n : nat) (h : Z) (b : list Z) : Z * list Z :=
  match n with
  | O => (h, b)
  | S n' =>
      if decide (8 <= length b)%nat then
        tail8 n'
          (add64 (mul64 (rol64 (Z.lxor h (round 0 (le (take 8 b)))) 27) prime1)
                 prime4)
          (drop 8 b)
      else (h, b)
  end.

Definition tail4 (h : Z) (b : list Z) : Z * list Z :=
  if decide (4 <= length b)%nat then
    (add64 (mul64 (rol64 (Z.lxor h (mul64 (le (take 4 b)) prime1)) 23) prime2)
           prime3,
     drop 4 b)
  else (h, b).

Fixpoint tail1 (h : Z) (b : list Z) : Z :=
  match b with
  | [] => h
  | x :: r => tail1 (mul64 (rol64 (Z.lxor h (mul64 x prime5)) 11) prime1) r
  end.

Definition avalanche (h : Z) : Z :=
  let h := mul64 (Z.lxor h (Z.shiftr h 33)) prime2 in
  let h := mul64 (Z.lxor h (Z.shiftr h 29)) prime3 in
  Z.lxor h (Z.shiftr h 32).

Definition sum64_bytes (b : list Z) : Z :=
  let n := Z.of_nat (length b) in
  let '(h, rest) :=
    if decide (32 <= length b)%nat then
      let '(v, rest) := stripes (length b) lanes0 b in
      let h := add64 (add64 (rol64 (v1 v) 1) (rol64 (v2 v) 7))
                     (add64 (rol64 (v3 v) 12) (rol64 (v4 v) 18)) in
      let h := mergeRound h (v1 v) in
      let h := mergeRound h (v2 v) in
      let h := mergeRound h (v3 v) in
      let h := mergeRound h (v4 v) in
      (h, rest)
    else (prime5, b) in
  let h := add64 h n in
  let '(h, rest) := tail8 (length rest) h rest in
  let '(h, rest) := tail4 h rest in
  avalanche (tail1 h rest).

(** [xxhash.Digest]: the concatenation of everything written. *)
Definition Digest := string.
Definition New : Digest := EmptyString.
Definition WriteString (d : Digest) (s : string) : Digest := d +:+ s.
Definition Sum64 (d : Digest) : Z := sum64_bytes (bytes_of d).

End xxhash.

(** ** Attribute maps (package [tracing], [xattr]) *)

(** Attribute keys of package [xattr]; the constants are named in the
    specification. *)
Module xattr.
Definition ServiceName : string := "service.name".
Definition HostName : string := "host.name".
Definition OtelLibraryName : string := "otel.library.name".
Definition OtelLibraryVersion : string := "otel.library.version".
Definition RPCSystem : string := "rpc.system".
Definition MessagingSystem : string := "messaging.system".
Definition MessagingOperation : string := "messaging.operation".
Definition DBSystem : string := "db.system".
Definition DBSqlTable : string := "db.sql.table".
Definition DBStatement : string := "db.statement".
Definition HTTPRoute : string := "http.route".
Definition HTTPTarget : string := "http.target".
Definition LogMessage : string := "log.message".
Definition LogSeverity : string := "log.severity".
Definition ExceptionType : string := "exception.type".
Definition ExceptionMessage : string := "exception.message".
End xattr.

(** Attribute values: string, bool, int64, float64 (kept as its 64-bit
    pattern) or a homogeneous array of these. *)
Inductive AttrValue :=
  | VString (s : string)
  | VBool (b : bool)
  | VInt (i : Z)
  | VFloat (bits : Z)
  | VStrings (l : list string)
  | VBools (l : list bool)
  | VInts (l : list Z)
  | VFloats (l : list Z).

Abbreviation AttrMap := (gmap string AttrValue).

Module AttrMap.

(** Modelled from the spec: the method [AttrMap.Text] is not part of the
    sources at hand.  It yields the string stored under the key, and the
    empty string when there is none. *)
Definition Text (m : AttrMap) (key : string) : string :=
  match m !! key with
  | Some (VString s) => s
  | _ => ""
  end.

(** Modelled from the spec: the method [AttrMap.Has] is not part of the
    sources at hand.  It tells whether the key is present. *)
Definition Has (m : AttrMap) (key : string) : bool :=
  match m !! key with
  | Some _ => true
  | None => false
  end.

(** Modelled from the spec: the method [AttrMap.ServiceName] is not part
    of the sources at hand.  It is [attrs["service.name"]] or the empty
    string. *)
Definition ServiceName (m : AttrMap) : string := Text m xattr.ServiceName.

End AttrMap.

(** ** Wire input ([tracepb], [commonpb]) *)

Module commonpb.
(** A key with its value already decoded to an attribute value. *)
Definition KeyValue : Type := string * AttrValue.
End commonpb.

Module tracepb.

Inductive Span_SpanKind :=
  | SPAN_KIND_UNSPECIFIED
  | SPAN_KIND_INTERNAL
  | SPAN_KIND_SERVER
  | SPAN_KIND_CLIENT
  | SPAN_KIND_PRODUCER
  | SPAN_KIND_CONSUMER.

Inductive Status_StatusCode :=
  | STATUS_CODE_UNSET
  | STATUS_CODE_OK
  | STATUS_CODE_ERROR.

Module Status.
Record t := Make { Code : Status_StatusCode; Message : string }.
End Status.

Module Span_Event.
Record t := Make {
  Name : string;
  TimeUnixNano : Z;
  Attributes : list commonpb.KeyValue }.
End Span_Event.

Module Span_Link.
Record t := Make {
  TraceId : list Z;
  SpanId : list Z;
  Attributes : list commonpb.KeyValue }.
End Span_Link.

Module Span.
Record t := Make {
  TraceId : list Z;
  SpanId : list Z;
  ParentSpanId : list Z;
  Name : string;
  Kind : Span_SpanKind;
  StartTimeUnixNano : Z;
  EndTimeUnixNano : Z;
  Attributes : list commonpb.KeyValue;
  Events : list Span_Event.t;
  Links : list Span_Link.t;
  Status : option Status.t }.

(** The two timestamps are [uint64] fields. *)
Definition wf (s : t) : Prop :=
  0 <= StartTimeUnixNano s < 2 ^ 64 /\ 0 <= EndTimeUnixNano s < 2 ^ 64.
End Span.

End tracepb.

Module bunapp.
Record Project := { ID : Z; Name : string; Token : string }.
End bunapp.

(** ** Internal entities *)

Module SpanEvent.
Record t := Make { Name : string; Attrs : AttrMap; Time : Z }.
End SpanEvent.

Module SpanLink.
Record t := Make { TraceID : Z; SpanID : Z; Attrs : AttrMap }.
End SpanLink.

Record Span := {
  ProjectID : Z;
  ID : Z;
  ParentID : Z;
  TraceID : Z;
  Name : string;
  Kind : string;
  System : string;
  GroupID : Z;
  Time : Z;
  Duration : Z;
  StatusCode : string;
  StatusMessage : string;
  Attrs : AttrMap;
  Events : list SpanEvent.t;
  Links : list SpanLink.t }.

(** The zero value of [Span], as [make([]Span, n)] allocates it. *)
Definition zeroSpan : Span :=
  {| ProjectID := 0; ID := 0; ParentID := 0; TraceID := 0; Name := "";
     Kind := ""; System := ""; GroupID := 0; Time := 0; Duration := 0;
     StatusCode := ""; StatusMessage := ""; Attrs := ∅; Events := [];
     Links := [] |}.

Definition set_ProjectID (v : Z) (s : Span) : Span :=
  {| ProjectID := v; ID := ID s; ParentID := ParentID s; TraceID := TraceID s;
     Name := Name s; Kind := Kind s; System := System s; GroupID := GroupID s;
     Time := Time s; Duration := Duration s; StatusCode := StatusCode s;
     StatusMessage := StatusMessage s; Attrs := Attrs s; Events := Events s;
     Links := Links s |}.

Definition set_Name (v : string) (s : Span) : Span :=
  {| ProjectID := ProjectID s; ID := ID s; ParentID := ParentID s;
     TraceID := TraceID s; Name := v; Kind := Kind s; System := System s;
     GroupID := GroupID s; Time := Time s; Duration := Duration s;
     StatusCode := StatusCode s; StatusMessage := StatusMessage s;
     Attrs := Attrs s; Events := Events s; Links := Links s |}.

Definition set_System (v : string) (s : Span) : Span :=
  {| ProjectID := ProjectID s; ID := ID s; ParentID := ParentID s;
     TraceID := TraceID s; Name := Name s; Kind := Kind s; System := v;
     GroupID := GroupID s; Time := Time s; Duration := Duration s;
     StatusCode := StatusCode s; StatusMessage := StatusMessage s;
     Attrs := Attrs s; Events := Events s; Links := Links s |}.

Definition set_GroupID (v : Z) (s : Span) : Span :=
  {| ProjectID := ProjectID s; ID := ID s; ParentID := ParentID s;
     TraceID := TraceID s; Name := Name s; Kind := Kind s; System := System s;
     GroupID := v; Time := Time s; Duration := Duration s;
     StatusCode := StatusCode s; StatusMessage := StatusMessage s;
     Attrs := Attrs s; Events := Events s; Links := Links s |}.

Record otlpSpan := {
  project : bunapp.Project;
  wire : tracepb.Span.t;
  resource : AttrMap }.

Record SpanIndex := {
  index_Span : Span;
  Count : Z;
  AttrKeys : list string;
  AttrValues : list string;
  ServiceName : string;
  HostName : string;
  EventCount : Z;
  EventErrorCount : Z;
  EventLogCount : Z }.

(** ** Decoding of the wire format *)

(** The [otlp*] helpers are not part of the sources at hand. *)

(** Modelled from the spec: [otlpSpanID] is missing.  A span id is the
    little-endian decoding of the 8 bytes on the wire; anything else (the
    absent parent id) decodes to 0. *)
Definition otlpSpanID (b : list Z) : Z :=
  if decide (length b = 8%nat) then Bits.le b else 0.

(** Modelled from the spec: [otlpTraceID] is missing.  A trace id is the
    little-endian decoding of the 16 bytes on the wire. *)
Definition otlpTraceID (b : list Z) : Z :=
  if decide (length b = 16%nat) then Bits.le b else 0.

Definition internalSpanKind : string := "internal".

(** Modelled from the spec: [otlpSpanKind] is missing.  A kind is the
    lowercase name of the enum variant. *)
Definition otlpSpanKind (k : tracepb.Span_SpanKind) : string :=
  match k with
  | tracepb.SPAN_KIND_UNSPECIFIED => "unspecified"
  | tracepb.SPAN_KIND_INTERNAL => internalSpanKind
  | tracepb.SPAN_KIND_SERVER => "server"
  | tracepb.SPAN_KIND_CLIENT => "client"
  | tracepb.SPAN_KIND_PRODUCER => "producer"
  | tracepb.SPAN_KIND_CONSUMER => "consumer"
  end.

(** Modelled from the spec: [otlpStatusCode] is missing.  The status
    code is "unset", "ok" or "error". *)
Definition otlpStatusCode (c : tracepb.Status_StatusCode) : string :=
  match c with
  | tracepb.STATUS_CODE_UNSET => "unset"
  | tracepb.STATUS_CODE_OK => "ok"
  | tracepb.STATUS_CODE_ERROR => "error"
  end.

(** Modelled from the spec: [otlpSetAttrs] is missing.  The attributes
    are laid over the destination map in wire order, overwriting on key
    collision. *)
Definition otlpSetAttrs (dest : AttrMap) (kvs : list commonpb.KeyValue)
  : AttrMap :=
  foldl (fun m kv => <[kv.1 := kv.2]> m) dest kvs.

(** Modelled from the spec: [otlpAttrs] is missing.  The attributes as a
    fresh map. *)
Definition otlpAttrs (kvs : list commonpb.KeyValue) : AttrMap :=
  otlpSetAttrs ∅ kvs.

(** [for k, v := range src { dest[k] = v }] into a fresh map, as [newSpan]
    copies the resource attributes. *)
Definition copyAttrs (src : AttrMap) : AttrMap :=
  foldl (fun dest kv => <[kv.1 := kv.2]> dest) ∅ (map_to_list src).

(** ** Event naming *)

Definition logEventType : string := "log".
Definition exceptionEventType : string := "exception".
Definition messageEventType : string := "message".

(** [strings.HasPrefix]. *)
Definition HasPrefix (s pre : string) : bool :=
  bool_decide (String.substring 0 (String.length pre) s = pre).

Definition joinTypeMessage (typ msg : string) : string :=
  if decide (msg = "") then
    (if decide (typ = "") then "" else typ)
  else if HasPrefix msg typ then msg
  else typ +:+ ": " +:+ msg.

Definition eventName (span : Span) (event : SpanEvent.t) : string :=
  let attrs := SpanEvent.Attrs event in
  if decide (SpanEvent.Name event = logEventType) then
    let msg := AttrMap.Text attrs xattr.LogMessage in
    if decide (msg <> "") then
      let sev := AttrMap.Text attrs xattr.LogSeverity in
      if decide (sev <> "") then sev +:+ " " +:+ msg else msg
    else
      let typ := AttrMap.Text attrs xattr.ExceptionType in
      let msg := AttrMap.Text attrs xattr.ExceptionMessage in
      if decide (typ <> "" \/ msg <> "") then joinTypeMessage typ msg else ""
  else if decide (SpanEvent.Name event = exceptionEventType) then
    joinTypeMessage (AttrMap.Text attrs xattr.ExceptionType)
                    (AttrMap.Text attrs xattr.ExceptionMessage)
  else if decide (SpanEvent.Name event = messageEventType) then
    let op := AttrMap.Text attrs xattr.MessagingOperation in
    if decide (op <> "") then Name span +:+ " " +:+ op
    else
      let typ := AttrMap.Text attrs "message.type" in
      if decide (typ <> "") then Name span +:+ " " +:+ typ else ""
  else "".

Definition newSpanEvent (span : Span) (i : tracepb.Span_Event.t)
  : SpanEvent.t :=
  let event :=
    SpanEvent.Make (tracepb.Span_Event.Name i)
                   (otlpAttrs (tracepb.Span_Event.Attributes i))
                   (Bits.int64 (tracepb.Span_Event.TimeUnixNano i)) in
  let s := eventName span event in
  if decide (s <> "") then
    SpanEvent.Make s (SpanEvent.Attrs event) (SpanEvent.Time event)
  else event.

Definition newSpanLink (link : tracepb.Span_Link.t) : SpanLink.t :=
  SpanLink.Make (otlpTraceID (tracepb.Span_Link.TraceId link))
                (otlpSpanID (tracepb.Span_Link.SpanId link))
                (otlpAttrs (tracepb.Span_Link.Attributes link)).

(** ** Fingerprinter *)

Definition allSpanType : string := "all".
Definition internalSpanType : string := "internal".
Definition httpSpanType : string := "http".
Definition dbSpanType : string := "db".
Definition rpcSpanType : string := "rpc".
Definition messagingSpanType : string := "messaging".
Definition serviceSpanType : string := "service".

(** [unicode.ToUpper] on an ASCII rune. *)
Definition upper_ascii (c : ascii) : ascii :=
  let n := N_of_ascii c in
  if ((97 <=? n) && (n <=? 122))%N then ascii_of_N (n - 32) else c.

(** [strings.ToUpper], as far as its result is an ASCII string.  Go maps
    the string rune by rune with [unicode.ToUpper].  The runes whose upper
    case is an ASCII rune are the ASCII runes (a..z go to A..Z), U+0131
    (the bytes C4 B1, to I) and U+017F (the bytes C5 BF, to S).  Every
    other rune has an upper case outside ASCII, and a byte that is not
    valid UTF-8 comes out as U+FFFD.  [ToUpper s] is [Some u] when the
    result is the ASCII string [u], and [None] when the result holds a
    rune outside ASCII, so that it is none of the keywords below. *)
Fixpoint ToUpper (s : string) : option string :=
  match s with
  | EmptyString => Some EmptyString
  | String c r =>
      if (N_of_ascii c <? 128)%N then String (upper_ascii c) <$> ToUpper r
      else
        match r with
        | String d r' =>
            if ((N_of_ascii c =? 196) && (N_of_ascii d =? 177))%N
            then String "I" <$> ToUpper r'
            else if ((N_of_ascii c =? 197) && (N_of_ascii d =? 191))%N
            then String "S" <$> ToUpper r'
            else None
        | EmptyString => None
        end
  end.

Definition sqlKeywords : list string :=
  ["SELECT"; "INSERT"; "UPDATE"; "DELETE"; "CREATE"; "DROP"; "TRUNCATE";
   "WITH"; "FROM"; "TABLE"; "JOIN"; "UNION"; "WHERE"; "GROUP"; "LIMIT";
   "ORDER"; "HAVING"].

Definition isSQLKeyword (s : string) : bool :=
  match ToUpper s with
  | Some u => bool_decide (u ∈ sqlKeywords)
  | None => false
  end.

Module sqlparser.

(** [Type] is reserved: the field is [Typ] here. *)
Record Token := { Typ : Z; Text : string }.

(** The tokenizer of package [sqlparser] is not part of the sources at
    hand: it is taken as a parameter.  [tokens s] are the tokens that
    [NextToken] returns, in order, before it reports [io.EOF]. *)
Class Tokenizer := {
  IdentToken : Z;
  tokens : string -> list Token }.

End sqlparser.

Section Fingerprinter.
Context `{tk : sqlparser.Tokenizer}.

Definition hashDBStmt (digest : xxhash.Digest) (s : string)
  : xxhash.Digest :=
  foldl (fun d token =>
           if bool_decide (sqlparser.Typ token = sqlparser.IdentToken)
              && isSQLKeyword (sqlparser.Text token)
           then xxhash.WriteString d (sqlparser.Text token)
           else d)
        digest (sqlparser.tokens s).

(** The span and the digest are both updated in place in the source;
    here the updated pair is returned. *)
Definition assignSystemAndGroupID (span : Span) (digest : xxhash.Digest)
  : Span * xxhash.Digest :=
  let s := AttrMap.Text (Attrs span) xattr.RPCSystem in
  if decide (s <> "") then
    let span :=
      set_System (rpcSpanType +:+ ":" +:+ AttrMap.ServiceName (Attrs span))
                 span in
    (span, xxhash.WriteString digest (System span))
  else
  let s := AttrMap.Text (Attrs span) xattr.MessagingSystem in
  if decide (s <> "") then
    let span := set_System (messagingSpanType +:+ ":" +:+ s) span in
    (span, xxhash.WriteString digest (System span))
  else
  let s := AttrMap.Text (Attrs span) xattr.DBSystem in
  if decide (s <> "") then
    let span := set_System (dbSpanType +:+ ":" +:+ s) span in
    let digest := xxhash.WriteString digest (System span) in
    let s := AttrMap.Text (Attrs span) xattr.DBSqlTable in
    let digest :=
      if decide (s <> "") then xxhash.WriteString digest s else digest in
    let s := AttrMap.Text (Attrs span) xattr.DBStatement in
    if decide (s <> "") then (set_Name s span, hashDBStmt digest s)
    else (span, digest)
  else
  if AttrMap.Has (Attrs span) xattr.HTTPRoute
     || AttrMap.Has (Attrs span) xattr.HTTPTarget then
    let span :=
      set_System (httpSpanType +:+ ":" +:+ AttrMap.ServiceName (Attrs span))
                 span in
    (span, xxhash.WriteString digest (System span))
  else
  if bool_decide (ParentID span = 0)
     || negb (bool_decide (Kind span = internalSpanKind)) then
    let span :=
      set_System
        (serviceSpanType +:+ ":" +:+ AttrMap.ServiceName (Attrs span)) span in
    (span, xxhash.WriteString digest (System span))
  else
    let span := set_System internalSpanType span in
    (span, xxhash.WriteString digest (System span)).

(** ** Span builder *)

Definition newSpan (span : otlpSpan) (out : Span) : Span :=
  let w := wire span in
  let attrs :=
    otlpSetAttrs (copyAttrs (resource span)) (tracepb.Span.Attributes w) in
  let out :=
    {| ProjectID := ProjectID out;
       ID := otlpSpanID (tracepb.Span.SpanId w);
       ParentID := otlpSpanID (tracepb.Span.ParentSpanId w);
       TraceID := otlpTraceID (tracepb.Span.TraceId w);
       Name := tracepb.Span.Name w;
       Kind := otlpSpanKind (tracepb.Span.Kind w);
       System := System out;
       GroupID := GroupID out;
       Time := Bits.int64 (tracepb.Span.StartTimeUnixNano w);
       Duration :=
         Bits.int64 (Bits.sub64 (tracepb.Span.EndTimeUnixNano w)
                                (tracepb.Span.StartTimeUnixNano w));
       StatusCode :=
         match tracepb.Span.Status w with
         | Some st => otlpStatusCode (tracepb.Status.Code st)
         | None => StatusCode out
         end;
       StatusMessage :=
         match tracepb.Span.Status w with
         | Some st => tracepb.Status.Message st
         | None => StatusMessage out
         end;
       Attrs := attrs;
       Events := Events out;
       Links := map newSpanLink (tracepb.Span.Links w) |} in
  let out :=
    {| ProjectID := ProjectID out; ID := ID out; ParentID := ParentID out;
       TraceID := TraceID out; Name := Name out; Kind := Kind out;
       System := System out; GroupID := GroupID out; Time := Time out;
       Duration := Duration out; StatusCode := StatusCode out;
       StatusMessage := StatusMessage out; Attrs := Attrs out;
       Events := map (newSpanEvent out) (tracepb.Span.Events w);
       Links := Links out |} in
  let digest := xxhash.New in
  let digest := xxhash.WriteString digest (Kind out) in
  let digest := xxhash.WriteString digest (Name out) in
  let '(out, digest) := assignSystemAndGroupID out digest in
  set_GroupID (xxhash.Sum64 digest) out.

(** The span that [flushSpans] builds for a batched item: a zero
    [Span] with the project id set, filled in by [newSpan]. *)
Definition buildSpan (item : otlpSpan) : Span :=
  newSpan item (set_ProjectID (bunapp.ID (project item)) zeroSpan).

End Fingerprinter.

(** ** Index projection *)

(** A byte [10xxxxxx] continues a UTF-8 rune. *)
Definition is_continuation (c : ascii) : bool :=
  let n := N_of_ascii c in ((128 <=? n) && (n <=? 191))%N.

(** The last rune start at or before byte [i]. *)
Fixpoint runeStart (s : string) (i : nat) : nat :=
  match i with
  | O => O
  | S j =>
      match String.get i s with
      | Some c => if is_continuation c then runeStart s j else i
      | None => i
      end
  end.

(** Modelled from the spec: [truncate] is not part of the sources at hand.
    It is the UTF-8-safe truncation to at most [n] bytes: a string of at
    most [n] bytes is kept, a longer one is cut at the last rune start at
    or before byte [n]. *)
Definition truncate (s : string) (n : nat) : string :=
  if decide (String.length s <= n)%nat then s
  else String.substring 0 (runeStart s n) s.

Section Index.
(** [asString], the canonical rendering of an attribute value, is not
    part of the sources at hand: it is taken as a parameter. *)
Variable asString : AttrValue -> string.

(** Go iterates a map in an unspecified order, the same for both
    slices; [map_to_list] fixes one. *)
Definition attrKeysAndValues (m : AttrMap) : list string * list string :=
  foldl (fun kvs kv =>
           (kvs.1 ++ [kv.1], kvs.2 ++ [truncate (asString kv.2) 200]))
        ([], []) (map_to_list m).

Definition newSpanIndex (span : Span) : SpanIndex :=
  let kv := attrKeysAndValues (Attrs span) in
  {| index_Span := span;
     Count := 1;
     AttrKeys := kv.1;
     AttrValues := kv.2;
     ServiceName := AttrMap.Text (Attrs span) xattr.ServiceName;
     HostName := AttrMap.Text (Attrs span) xattr.HostName;
     EventCount := Bits.u8 (Z.of_nat (length (Events span)));
     EventErrorCount := 0;
     EventLogCount := 0 |}.

End Index.

(** ** Batcher *)

Module Batcher.

(** What one [select] of [processLoop] receives. *)
Inductive event :=
  | Recv (span : otlpSpan)
  | TimerFired
  | Done.

(** The buffer [spans], and the batches handed to [flushSpans] so far,
    oldest first. *)
Record state := { spans : list otlpSpan; flushed : list (list otlpSpan) }.

Definition init : state := {| spans := []; flushed := [] |}.

(** [s.flushSpans(ctx, spans); spans = make([]otlpSpan, 0, len(spans))] *)
Definition flushSpans (st : state) : state :=
  {| spans := []; flushed := flushed st ++ [spans st] |}.

(** The check that ends every iteration. *)
Definition sizeCheck (batchSize : nat) (st : state) : state :=
  if decide (length (spans st) = batchSize) then flushSpans st else st.

Definition onRecv (batchSize : nat) (st : state) (span : otlpSpan) : state :=
  sizeCheck batchSize
    {| spans := spans st ++ [span]; flushed := flushed st |}.

Definition onTimer (batchSize : nat) (st : state) : state :=
  sizeCheck batchSize
    (if decide (0 < length (spans st))%nat then flushSpans st else st).

(** After the loop: the residual buffer. *)
Definition drain (st : state) : list (list otlpSpan) :=
  if decide (0 < length (spans st))%nat then flushed (flushSpans st)
  else flushed st.

(** [processLoop] over the sequence of events its [select] receives.
    [Some batches]: the loop has returned, having handed [batches] to the
    flusher.  [None]: the events ran out and the loop is still waiting. *)
Fixpoint loop (batchSize : nat) (evs : list event) (st : state)
  : option (list (list otlpSpan)) :=
  match evs with
  | [] => None
  | Recv span :: evs' => loop batchSize evs' (onRecv batchSize st span)
  | TimerFired :: evs' => loop batchSize evs' (onTimer batchSize st)
  | Done :: _ => Some (drain st)
  end.

Definition processLoop (batchSize : nat) (evs : list event)
  : option (list (list otlpSpan)) :=
  loop batchSize evs init.

(** The state after a run of events none of which is [Done]. *)
Definition run (batchSize : nat) (evs : list event) (st : state) : state :=
  foldl (fun st ev =>
           match ev with
           | Recv span => onRecv batchSize st span
           | TimerFired => onTimer batchSize st
           | Done => st
           end) st evs.

Definition received (evs : list event) : list otlpSpan :=
  omap (fun ev => match ev with Recv span => Some span | _ => None end) evs.

Definition is_Done (ev : event) : bool :=
  match ev with Done => true | _ => false end.

(** What holds between two iterations of the loop: the buffer is not full,
    nothing received is lost or reordered, and every batch handed over is
    non-empty and at most [batchSize] long. *)
Definition inv (batchSize : nat) (items : list otlpSpan) (st : state) : Prop :=
(length (spans st) < batchSize)%nat
/\ concat (flushed st) ++ spans st = items
/\ Forall (fun b => (0 < length b <= batchSize)%nat) (flushed st).

End Batcher.

(** ** Ingress handler *)

Module codes.
(** The gRPC status codes that matter here. *)
Inductive Code := OK | Canceled | Unknown | InvalidArgument | NotFound.
End codes.

(** A Go [error] value: a gRPC status error made by [status.Error], or
    a plain error made by [errors.New] or [fmt.Errorf]. *)
Inductive error :=
  | StatusError (c : codes.Code) (msg : string)
  | PlainError (msg : string).

Module status.
Definition Error (c : codes.Code) (msg : string) : error := StatusError c msg.

(** [status.Code]: the code of a status error; [OK] for nil and
    [Unknown] for an error that is not a status. *)
Definition Code (e : option error) : codes.Code :=
  match e with
  | None => codes.OK
  | Some (StatusError c _) => c
  | Some (PlainError _) => codes.Unknown
  end.
End status.

Definition errorMessage (e : error) : string :=
  match e with
  | StatusError _ msg => msg
  | PlainError msg => msg
  end.

Module context.
Inductive Err := Canceled | DeadlineExceeded.
End context.

(** The incoming context: its error, if any, and the transport metadata,
    if any ([metadata.FromIncomingContext]). *)
Record Context := {
  ctxErr : option context.Err;
  incoming : option (gmap string (list string)) }.

Module metadata.
Definition Get (md : gmap string (list string)) (k : string) : list string :=
  default [] (md !! k).
End metadata.

Module org.
Record DSN := { Token : string }.
End org.

Module resourcepb.
Record Resource := { Attributes : list commonpb.KeyValue }.
End resourcepb.

Module collectortrace.

Record InstrumentationLibrary := { Name : string; Version : string }.

Record InstrumentationLibrarySpans := {
  Library : option InstrumentationLibrary;
  Spans : list tracepb.Span.t }.

(** [Resource] is a pointer in the generated code: a ResourceSpans that
    came without a resource has none.  The elements of the repeated
    fields are never nil in a decoded request. *)
Record ResourceSpans := {
  Resource : option resourcepb.Resource;
  LibrarySpans : list InstrumentationLibrarySpans }.

Record ExportTraceServiceRequest := { Resources : list ResourceSpans }.

Inductive ExportTraceServiceResponse := EmptyResponse.

(** The nil-safe getters of the generated code. *)
Definition GetName (lib : option InstrumentationLibrary) : string :=
  match lib with Some l => Name l | None => "" end.
Definition GetVersion (lib : option InstrumentationLibrary) : string :=
  match lib with Some l => Version l | None => "" end.

End collectortrace.

Module Ingress.

(** An item on the channel.  The [resource] map of the source is shared
    by all the spans of one [ResourceSpans] and written to after some of
    them are sent: items hold a reference into a store of maps. *)
Record item := {
  item_project : bunapp.Project;
  item_span : tracepb.Span.t;
  item_resource : nat }.

(** The channel and the maps that its items refer to.  [sent] are the
    items sent so far, oldest first.  A send blocks while the channel is
    full: [room] is the number of sends that the channel still takes, given
    its capacity and what the batcher receives in the meantime; a send that
    finds no room leaves the caller blocked. *)
Record chanState := {
  sent : list item; store : list AttrMap; room : nat }.

(** How a run of [process] ends: it returns, it panics on a nil pointer, or
    it stays blocked in a send. *)
Inductive ending := Completed | Panicked | Blocked.

(** [for _, span := range ils.Spans { s.ch <- otlpSpan{...} }] *)
Fixpoint sendSpans (p : bunapp.Project) (ref : nat)
    (ch : chanState) (spans : list tracepb.Span.t) : ending * chanState :=
  match spans with
  | [] => (Completed, ch)
  | sp :: rest =>
      match room ch with
      | O => (Blocked, ch)
      | S r =>
          sendSpans p ref
            {| sent := sent ch ++ [Build_item p sp ref];
               store := store ch; room := r |}
            rest
      end
  end.

Definition setResource (ref : nat) (k : string) (v : AttrValue)
    (ch : chanState) : chanState :=
  {| sent := sent ch;
     store := alter (fun m : AttrMap => <[k := v]> m) ref (store ch);
     room := room ch |}.

Definition processLibrary (p : bunapp.Project) (ref : nat)
    (ch : chanState) (ils : collectortrace.InstrumentationLibrarySpans)
  : ending * chanState :=
  let lib := collectortrace.Library ils in
  let ch :=
    setResource ref xattr.OtelLibraryName
                (VString (collectortrace.GetName lib)) ch in
  let ch :=
    if decide (collectortrace.GetVersion lib <> "") then
      setResource ref xattr.OtelLibraryVersion
                  (VString (collectortrace.GetVersion lib)) ch
    else ch in
  sendSpans p ref ch (collectortrace.Spans ils).

(** [for _, ils := range rss.InstrumentationLibrarySpans { ... }] *)
Fixpoint processLibraries (p : bunapp.Project) (ref : nat) (ch : chanState)
    (libs : list collectortrace.InstrumentationLibrarySpans)
  : ending * chanState :=
  match libs with
  | [] => (Completed, ch)
  | ils :: rest =>
      match processLibrary p ref ch ils with
      | (Completed, ch') => processLibraries p ref ch' rest
      | stopped => stopped
      end
  end.

(** [rss.Resource.Attributes] reads through the pointer: without a
    resource the call panics there, with the spans of the earlier
    ResourceSpans already sent. *)
Fixpoint process (p : bunapp.Project)
    (resourceSpans : list collectortrace.ResourceSpans) (ch : chanState)
  : ending * chanState :=
  match resourceSpans with
  | [] => (Completed, ch)
  | rss :: rest =>
      match collectortrace.Resource rss with
      | None => (Panicked, ch)
      | Some res =>
          let ref := length (store ch) in
          let ch :=
            {| sent := sent ch;
               store := store ch ++ [otlpAttrs (resourcepb.Attributes res)];
               room := room ch |} in
          match processLibraries p ref ch (collectortrace.LibrarySpans rss)
          with
          | (Completed, ch') => process p rest ch'
          | stopped => stopped
          end
      end
  end.

(** What a call of [Export] comes to: it returns a response or an error,
    or it panics, or it stays blocked; each with the channel as the call
    leaves it. *)
Inductive result :=
  | Returned (r : option collectortrace.ExportTraceServiceResponse
                  * option error * chanState)
  | Panics (ch : chanState)
  | Blocks (ch : chanState).

Definition errorOf (r : result) : option error :=
  match r with
  | Returned (_, err, _) => err
  | _ => None
  end.

Definition chanOf (r : result) : chanState :=
  match r with
  | Returned (_, _, ch) => ch
  | Panics ch => ch
  | Blocks ch => ch
  end.

(** All the spans of a request, in the order of the request. *)
Definition spansOf (resourceSpans : list collectortrace.ResourceSpans)
  : list tracepb.Span.t :=
  concat (map (fun rss =>
                 concat (map collectortrace.Spans
                             (collectortrace.LibrarySpans rss)))
              resourceSpans).

Definition hasResource (rss : collectortrace.ResourceSpans) : Prop :=
  collectortrace.Resource rss <> None.

(** What a run has done to the channel when it ends with [e]: the items
    [new] sent behind what was there, each taking one place of the room,
    each for the project [p] with a reference from [lo] up to [hi], and
    their spans the first of [spans], all of them if the run completed;
    a blocked run has used up the room. *)
Definition progress (p : bunapp.Project) (lo hi : nat) (ch ch' : chanState)
    (e : ending) (spans : list tracepb.Span.t) : Prop :=
  exists new,
    sent ch' = sent ch ++ new
    /\ (length new + room ch' = room ch)%nat
    /\ Forall (fun it => item_project it = p
                         /\ (lo <= item_resource it < hi)%nat) new
    /\ map item_span new `prefix_of` spans
    /\ (e = Completed -> map item_span new = spans)
    /\ (e = Blocked -> room ch' = 0%nat).

Section Handler.
(** [org.ParseDSN] and [strconv.Quote] (the [%q] verb) are not part of
    the sources at hand: both are taken as parameters. *)
Variable ParseDSN : string -> org.DSN + error.
Variable Quote : string -> string.
(** [s.Config().Projects] *)
Variable Projects : list bunapp.Project.

Definition findProjectByDSN (dsnStr : string) : bunapp.Project + error :=
  if decide (dsnStr = "") then
    inr (PlainError "uptrace-dsn header can't be empty")
  else
    match ParseDSN dsnStr with
    | inr err => inr err
    | inl dsn =>
        if decide (org.Token dsn = "") then
          inr (PlainError
                 ("dsn " +:+ Quote dsnStr +:+ " does not contain a token"))
        else
          match
            List.find
              (fun p => bool_decide (bunapp.Token p = org.Token dsn))
              Projects
          with
          | Some p => inl p
          | None =>
              inr (PlainError
                     ("project with token " +:+ Quote (org.Token dsn)
                      +:+ " not found"))
          end
    end.

Definition Export (ctx : Context)
    (req : collectortrace.ExportTraceServiceRequest) (ch : chanState)
  : result :=
  match ctxErr ctx with
  | Some context.Canceled =>
    Returned
      (None,
       Some (status.Error codes.Canceled "Client cancelled, abandoning."),
       ch)
  | _ =>
    match incoming ctx with
    | None => Returned (None, Some (PlainError "metadata is empty"), ch)
    | Some md =>
        match metadata.Get md "uptrace-dsn" with
        | [] =>
            Returned
              (None, Some (PlainError "uptrace-dsn header is required"), ch)
        | dsn0 :: _ =>
            match findProjectByDSN dsn0 with
            | inr err => Returned (None, Some err, ch)
            | inl p =>
                match process p (collectortrace.Resources req) ch with
                | (Completed, ch') =>
                    Returned (Some collectortrace.EmptyResponse, None, ch')
                | (Panicked, ch') => Panics ch'
                | (Blocked, ch') => Blocks ch'
                end
            end
        end
    end
  end.

End Handler.

(** A parser for DSNs of the shape [scheme://token@host:port/project-id]
    and the quoting of a string without special characters, to run the
    handler on examples. *)
Fixpoint upto (c : ascii) (s : string) : string :=
  match s with
  | EmptyString => EmptyString
  | String a r => if decide (a = c) then EmptyString else String a (upto c r)
  end.

Fixpoint after (sep : string) (s : string) : option string :=
  if HasPrefix s sep then
    Some (String.substring (String.length sep)
                           (String.length s - String.length sep) s)
  else
    match s with
    | EmptyString => None
    | String _ r => after sep r
    end.

Definition sampleParseDSN (s : string) : org.DSN + error :=
  match after "://" s with
  | None => inr (PlainError "invalid DSN")
  | Some r =>
      if bool_decide ("@"%char ∈ list_ascii_of_string r)
      then inl {| org.Token := upto "@" r |}
      else inl {| org.Token := "" |}
  end.

Definition sampleQuote (s : string) : string :=
  String (ascii_of_nat 34) s +:+ String (ascii_of_nat 34) EmptyString.

End Ingress.

(** ** The fingerprint as the specification words it *)

Section FingerprintSpec.
Context `{tk : sqlparser.Tokenizer}.

(** The SQL keyword tokens of a statement: the texts of the identifier
    tokens that belong to the keyword set, in order. *)
Definition keywordTokens (stmt : string) : list string :=
  map sqlparser.Text
      (List.filter
         (fun t => bool_decide (sqlparser.Typ t = sqlparser.IdentToken)
                   && isSQLKeyword (sqlparser.Text t))
         (sqlparser.tokens stmt)).

Definition statementKeywords (attrs : AttrMap) : list string :=
  let stmt := AttrMap.Text attrs xattr.DBStatement in
  if decide (stmt = "") then [] else keywordTokens stmt.

(** Which rule of the cascade applies. *)
Inductive rule := RuleRPC | RuleMessaging | RuleDB | RuleHTTP
                | RuleService | RuleInternal.

Definition ruleOf (attrs : AttrMap) (parentID : Z) (kind : string) : rule :=
  if decide (AttrMap.Text attrs xattr.RPCSystem <> "") then RuleRPC
  else if decide (AttrMap.Text attrs xattr.MessagingSystem <> "")
  then RuleMessaging
  else if decide (AttrMap.Text attrs xattr.DBSystem <> "") then RuleDB
  else if AttrMap.Has attrs xattr.HTTPRoute
          || AttrMap.Has attrs xattr.HTTPTarget then RuleHTTP
  else if decide (parentID = 0 \/ kind <> internalSpanKind) then RuleService
  else RuleInternal.

Definition systemOf (r : rule) (attrs : AttrMap) : string :=
  match r with
  | RuleRPC => "rpc:" +:+ AttrMap.ServiceName attrs
  | RuleMessaging => "messaging:" +:+ AttrMap.Text attrs xattr.MessagingSystem
  | RuleDB => "db:" +:+ AttrMap.Text attrs xattr.DBSystem
  | RuleHTTP => "http:" +:+ AttrMap.ServiceName attrs
  | RuleService => "service:" +:+ AttrMap.ServiceName attrs
  | RuleInternal => "internal"
  end.

(** The db-specific extras: the text of [db.sql.table], then the
    keyword tokens of [db.statement]. *)
Definition dbExtras (r : rule) (attrs : AttrMap) : string :=
  match r with
  | RuleDB =>
      AttrMap.Text attrs xattr.DBSqlTable
      +:+ String.concat "" (statementKeywords attrs)
  | _ => ""
  end.

Definition fingerprint (kind name system extras : string) : Z :=
  xxhash.Sum64 (kind +:+ name +:+ system +:+ extras).

(** The merged attributes of an item, and the rule that applies to it. *)
Definition mergedAttrs (item : otlpSpan) : AttrMap :=
  otlpSetAttrs (resource item) (tracepb.Span.Attributes (wire item)).

(** Two items that are identical except for their [db.statement]
    attribute. *)
Definition sameButStatement (a b : otlpSpan) : Prop :=
  project a = project b
  /\ tracepb.Span.TraceId (wire a) = tracepb.Span.TraceId (wire b)
  /\ tracepb.Span.SpanId (wire a) = tracepb.Span.SpanId (wire b)
  /\ tracepb.Span.ParentSpanId (wire a) = tracepb.Span.ParentSpanId (wire b)
  /\ tracepb.Span.Name (wire a) = tracepb.Span.Name (wire b)
  /\ tracepb.Span.Kind (wire a) = tracepb.Span.Kind (wire b)
  /\ tracepb.Span.StartTimeUnixNano (wire a)
     = tracepb.Span.StartTimeUnixNano (wire b)
  /\ tracepb.Span.EndTimeUnixNano (wire a)
     = tracepb.Span.EndTimeUnixNano (wire b)
  /\ tracepb.Span.Events (wire a) = tracepb.Span.Events (wire b)
  /\ tracepb.Span.Links (wire a) = tracepb.Span.Links (wire b)
  /\ tracepb.Span.Status (wire a) = tracepb.Span.Status (wire b)
  /\ delete xattr.DBStatement (mergedAttrs a)
     = delete xattr.DBStatement (mergedAttrs b).

Definition itemRule (item : otlpSpan) : rule :=
  ruleOf (mergedAttrs item)
         (otlpSpanID (tracepb.Span.ParentSpanId (wire item)))
         (otlpSpanKind (tracepb.Span.Kind (wire item))).

End FingerprintSpec.

(** ** A small tokenizer to run examples

    Runs of letters, digits and underscores that start with a letter or an
    underscore are identifier tokens; white space separates; every other
    byte is a token of its own. *)
Module SampleSQL.

Definition identType : Z := 1.
Definition otherType : Z := 0.

Definition is_letter (c : ascii) : bool :=
  let n := N_of_ascii c in
  ((65 <=? n) && (n <=? 90) || (97 <=? n) && (n <=? 122) || (n =? 95))%N.

Definition is_digit (c : ascii) : bool :=
  let n := N_of_ascii c in ((48 <=? n) && (n <=? 57))%N.

Definition close (cur : option string) : list sqlparser.Token :=
  match cur with
  | Some w => [ {| sqlparser.Typ := identType; sqlparser.Text := w |} ]
  | None => []
  end.

Fixpoint scan (cur : option string) (s : string) : list sqlparser.Token :=
  match s with
  | EmptyString => close cur
  | String c r =>
      if is_letter c || (is_digit c && bool_decide (cur <> None)) then
        scan (Some (default "" cur +:+ String c "")) r
      else if Ascii.is_space c then close cur ++ scan None r
      else
        close cur
        ++ {| sqlparser.Typ := otherType; sqlparser.Text := String c "" |}
           :: scan None r
  end.

#[export] Instance tokenizer : sqlparser.Tokenizer :=
  {| sqlparser.IdentToken := identType; sqlparser.tokens := scan None |}.

End SampleSQL.

(** ** The duration as the specification words it *)

(** End minus start, saturating at 0. *)
Definition saturatingDuration (w : tracepb.Span.t) : Z :=
Z.max 0 (tracepb.Span.EndTimeUnixNano w - tracepb.Span.StartTimeUnixNano w).

(** ** Sample inputs *)

Module Samples.
Export SampleSQL.

Definition proj : bunapp.Project :=
  {| bunapp.ID := 7; bunapp.Name := "demo"; bunapp.Token := "secret" |}.

Definition wireSpan (name : string) (kind : tracepb.Span_SpanKind)
    (parent : list Z) (startNano endNano : Z)
    (attrs : list commonpb.KeyValue) : tracepb.Span.t :=
  tracepb.Span.Make
    [1;2;3;4;5;6;7;8;9;10;11;12;13;14;15;16]%Z [1;0;0;0;0;0;0;0]%Z parent
    name kind startNano endNano attrs [] [] None.

(** A database client span (scenario S1 of the specification). *)
Definition sqlSpan (stmt : string) : otlpSpan :=
  {| project := proj;
     wire :=
       wireSpan "query" tracepb.SPAN_KIND_CLIENT [] 1000 1500
         [("db.system", VString "postgresql");
          ("db.sql.table", VString "users");
          ("db.statement", VString stmt)];
     resource := {[ "service.name" := VString "api" ]} |}.

(** A span whose end lies before its start. *)
Definition backwardsSpan : otlpSpan :=
  {| project := proj;
     wire := wireSpan "op" tracepb.SPAN_KIND_SERVER [] 1500 1000 [];
     resource := ∅ |}.

(** [rpc.system] is present but empty, [http.route] is set. *)
Definition emptyRPCSpan : otlpSpan :=
  {| project := proj;
     wire :=
       wireSpan "GET /users" tracepb.SPAN_KIND_SERVER [] 1000 1500
         [("rpc.system", VString ""); ("http.route", VString "/users/:id")];
     resource := {[ "service.name" := VString "api" ]} |}.

Definition grpcSpan : otlpSpan :=
  {| project := proj;
     wire :=
       wireSpan "Get" tracepb.SPAN_KIND_SERVER [] 1000 1500
         [("rpc.system", VString "grpc"); ("http.route", VString "/users/:id")];
     resource := {[ "service.name" := VString "api" ]} |}.

(** The key [env] is set by the resource and by the span. *)
Definition collidingSpan : otlpSpan :=
  {| project := proj;
     wire :=
       wireSpan "op" tracepb.SPAN_KIND_INTERNAL [] 1000 1500
         [("env", VString "B")];
     resource := {[ "env" := VString "A" ]} |}.

Definition anEvent : tracepb.Span_Event.t :=
  tracepb.Span_Event.Make "tick" 1200 [].

(** A wire span that carries [n] events. *)
Definition eventfulItem (n : nat) : otlpSpan :=
{| project := proj;
   wire :=
     tracepb.Span.Make
       [1;2;3;4;5;6;7;8;9;10;11;12;13;14;15;16]%Z [1;0;0;0;0;0;0;0]%Z []
       "op" tracepb.SPAN_KIND_SERVER 1000 1500 [] (replicate n anEvent) []
       None;
   resource := ∅ |}.

(** Five arrivals and a timer, for a batch size of 2. *)
Definition arrivals : list Batcher.event :=
[Batcher.Recv (sqlSpan "SELECT 1"); Batcher.Recv (sqlSpan "SELECT 2");
 Batcher.Recv (sqlSpan "SELECT 3"); Batcher.TimerFired;
 Batcher.Recv (sqlSpan "SELECT 4")].

(** Scenarios S2, S4 and S6 of the specification. *)
Definition homeSpan : otlpSpan :=
{| project := proj;
   wire := wireSpan "GET /home" tracepb.SPAN_KIND_SERVER [] 1000 1500 [];
   resource := {[ "service.name" := VString "web" ]} |}.

Definition failingSpan : otlpSpan :=
{| project := proj;
   wire :=
     tracepb.Span.Make
       [1;2;3;4;5;6;7;8;9;10;11;12;13;14;15;16]%Z [1;0;0;0;0;0;0;0]%Z []
       "write" tracepb.SPAN_KIND_INTERNAL 1000 1500 []
       [tracepb.Span_Event.Make "exception" 1200
          [("exception.type", VString "IOError");
           ("exception.message", VString "disk full")];
        tracepb.Span_Event.Make "log" 1300
          [("log.message", VString "failed");
           ("log.severity", VString "ERROR")]]
       [] None;
   resource := ∅ |}.

Definition childSpan : otlpSpan :=
{| project := proj;
   wire :=
     wireSpan "step" tracepb.SPAN_KIND_INTERNAL [2;0;0;0;0;0;0;0]%Z
       1000 1500 [];
   resource := {[ "service.name" := VString "web" ]} |}.

(** Contexts and a request for the ingress handler. *)
Definition noMetadata : Context := {| ctxErr := None; incoming := None |}.

Definition noHeader : Context :=
{| ctxErr := None; incoming := Some {[ "user-agent" := ["otel"] ]} |}.

Definition withDSN (dsn : string) : Context :=
{| ctxErr := None; incoming := Some {[ "uptrace-dsn" := [dsn] ]} |}.

Definition cancelled : Context :=
{| ctxErr := Some context.Canceled;
   incoming := Some {[ "uptrace-dsn" := ["http://secret@localhost:14317/7"] ]} |}.

Definition request : collectortrace.ExportTraceServiceRequest :=
{| collectortrace.Resources :=
     [ {| collectortrace.Resource :=
            Some {| resourcepb.Attributes :=
                      [("service.name", VString "api")] |};
          collectortrace.LibrarySpans :=
            [ {| collectortrace.Library :=
                   Some {| collectortrace.Name := "otelsql";
                           collectortrace.Version := "" |};
                 collectortrace.Spans :=
                   [wire (sqlSpan "SELECT 1"); wire (sqlSpan "SELECT 2")] |} ]
       |} ] |}.

Definition emptyChan : Ingress.chanState :=
{| Ingress.sent := []; Ingress.store := []; Ingress.room := 2000 |}.

Definition export :=
Ingress.Export Ingress.sampleParseDSN Ingress.sampleQuote [proj].

Definition renderString (v : AttrValue) : string :=
  match v with VString s => s | _ => "" end.

End Samples.

(** ** Flusher *)

Module SpanData.
Record t := Make {
  TraceID : Z; ID : Z; ParentID : Z; Time : Z; Data : string }.
End SpanData.

Module Flusher.

(** A bulk insert: [spans_data] rows or [spans_index] rows. *)
Inductive insert :=
  | InsertData (rows : list SpanData.t)
  | InsertIndex (rows : list SpanIndex).

Definition tableOf (i : insert) : string :=
  match i with
  | InsertData _ => "spans_data"
  | InsertIndex _ => "spans_index"
  end.

(** A line of the error log: the message, the error and the table. *)
Record logEntry := { log_msg : string; log_err : error; log_table : string }.

Record rows := {
  spans : list Span; index : list SpanIndex; data : list SpanData.t }.

Section Flush.
Context `{tk : sqlparser.Tokenizer}.
Variable asString : AttrValue -> string.
(** [marshalSpan] and the store are not part of the sources at hand: the
    serialization and the answer of the store to an insert are taken as
    parameters. *)
Variable marshalSpan : Span -> string.
Variable exec : insert -> option error.

Definition newSpanData (span : Span) : SpanData.t :=
  {| SpanData.TraceID := TraceID span;
     SpanData.ID := ID span;
     SpanData.ParentID := ParentID span;
     SpanData.Time := Time span;
     SpanData.Data := marshalSpan span |}.

(** The loop of [flushSpans] over the batch: the three slices are filled
    item by item. *)
Definition buildRows (otlpSpans : list otlpSpan) : rows :=
  foldl (fun r item =>
           let span := buildSpan item in
           {| spans := spans r ++ [span];
              index := index r ++ [newSpanIndex asString span];
              data := data r ++ [newSpanData span] |})
        {| spans := []; index := []; data := [] |} otlpSpans.

Definition logFailure (i : insert) : list logEntry :=
  match exec i with
  | Some err =>
      [ {| log_msg := "ch.Insert failed"; log_err := err;
           log_table := tableOf i |} ]
  | None => []
  end.

(** The body of the goroutine of [flushSpans]: the inserts issued, in
    order, and the lines logged. *)
Definition flushSpans (otlpSpans : list otlpSpan)
  : list insert * list logEntry :=
  let r := buildRows otlpSpans in
  let logs := logFailure (InsertData (data r)) in
  let logs := logs ++ logFailure (InsertIndex (index r)) in
  ([InsertData (data r); InsertIndex (index r)], logs).

End Flush.

End Flusher.

(** ** Configuration (package [bunapp], config.go) *)

Module config.

Record User := { ID : Z; Username : string; Password : string }.

(** [AppConfig]; the nested structs [Site], [Listen], [DB], [CH],
    [Retention] and [CHSelectLimits] are flattened. *)
Record AppConfig := {
  Filepath : string;
  Service : string;
  Debug : bool;
  SecretKey : string;
  Site_Scheme : string;
  Site_Host : string;
  Listen_HTTP : string;
  Listen_GRPC : string;
  Listen_HTTPHost : string;
  Listen_HTTPPort : string;
  Listen_GRPCHost : string;
  Listen_GRPCPort : string;
  DB_DSN : string;
  CH_DSN : string;
  Retention_TTL : string;
  Users : list User;
  Projects : list bunapp.Project;
  SampleRows : Z;
  MaxRowsToRead : Z;
  MaxBytesToRead : Z }.

Definition setFile (file service : string) (c : AppConfig) : AppConfig :=
  {| Filepath := file; Service := service; Debug := Debug c;
     SecretKey := SecretKey c; Site_Scheme := Site_Scheme c;
     Site_Host := Site_Host c; Listen_HTTP := Listen_HTTP c;
     Listen_GRPC := Listen_GRPC c; Listen_HTTPHost := Listen_HTTPHost c;
     Listen_HTTPPort := Listen_HTTPPort c;
     Listen_GRPCHost := Listen_GRPCHost c;
     Listen_GRPCPort := Listen_GRPCPort c; DB_DSN := DB_DSN c;
     CH_DSN := CH_DSN c; Retention_TTL := Retention_TTL c; Users := Users c;
     Projects := Projects c; SampleRows := SampleRows c;
     MaxRowsToRead := MaxRowsToRead c; MaxBytesToRead := MaxBytesToRead c |}.

Definition setHTTP (host port : string) (c : AppConfig) : AppConfig :=
  {| Filepath := Filepath c; Service := Service c; Debug := Debug c;
     SecretKey := SecretKey c; Site_Scheme := Site_Scheme c;
     Site_Host := Site_Host c; Listen_HTTP := Listen_HTTP c;
     Listen_GRPC := Listen_GRPC c; Listen_HTTPHost := host;
     Listen_HTTPPort := port;
     Listen_GRPCHost := Listen_GRPCHost c;
     Listen_GRPCPort := Listen_GRPCPort c; DB_DSN := DB_DSN c;
     CH_DSN := CH_DSN c; Retention_TTL := Retention_TTL c; Users := Users c;
     Projects := Projects c; SampleRows := SampleRows c;
     MaxRowsToRead := MaxRowsToRead c; MaxBytesToRead := MaxBytesToRead c |}.

Definition setGRPC (host port : string) (c : AppConfig) : AppConfig :=
  {| Filepath := Filepath c; Service := Service c; Debug := Debug c;
     SecretKey := SecretKey c; Site_Scheme := Site_Scheme c;
     Site_Host := Site_Host c; Listen_HTTP := Listen_HTTP c;
     Listen_GRPC := Listen_GRPC c; Listen_HTTPHost := Listen_HTTPHost c;
     Listen_HTTPPort := Listen_HTTPPort c;
     Listen_GRPCHost := host;
     Listen_GRPCPort := port; DB_DSN := DB_DSN c;
     CH_DSN := CH_DSN c; Retention_TTL := Retention_TTL c; Users := Users c;
     Projects := Projects c; SampleRows := SampleRows c;
     MaxRowsToRead := MaxRowsToRead c; MaxBytesToRead := MaxBytesToRead c |}.

Section Read.
(** The file system, the YAML decoder and [net.SplitHostPort] are taken
    as parameters: [Unmarshal b] is the configuration that
    [yaml.Unmarshal] decodes from the bytes [b] into a fresh [AppConfig]. *)
Variable Abs : string -> string + error.
Variable ReadFile : string -> string + error.
Variable Unmarshal : string -> AppConfig + error.
Variable SplitHostPort : string -> (string * string) + error.

Definition ReadConfig (configFile service : string) : AppConfig + error :=
  match Abs configFile with
  | inr err => inr err
  | inl configFile =>
  match ReadFile configFile with
  | inr err => inr err
  | inl b =>
  match Unmarshal b with
  | inr err => inr err
  | inl cfg =>
    let cfg := setFile configFile service cfg in
    if decide (length (Users cfg) = 0%nat) then
      inr (PlainError "config must contain at least one user")
    else if decide (length (Projects cfg) = 0%nat) then
      inr (PlainError "config must contain at least one project")
    else
      match SplitHostPort (Listen_HTTP cfg) with
      | inr err =>
          inr (PlainError ("can't parse option listen.http addr: "
                           +:+ errorMessage err))
      | inl (httpHost, httpPort) =>
          let httpHost :=
            if decide (httpHost = "") then Site_Host cfg else httpHost in
          let cfg := setHTTP httpHost httpPort cfg in
          match SplitHostPort (Listen_GRPC cfg) with
          | inr err =>
              inr (PlainError ("can't parse option listen.grpc addr: "
                               +:+ errorMessage err))
          | inl (grpcHost, grpcPort) =>
              let grpcHost :=
                if decide (grpcHost = "") then Site_Host cfg else grpcHost in
              inl (setGRPC grpcHost grpcPort cfg)
          end
      end
  end end end.

End Read.

(** [fmt.Sprintf("%s://%s:%s/", ...)] and the two endpoints. *)
Definition SiteAddr (c : AppConfig) : string :=
  Site_Scheme c +:+ "://" +:+ Listen_HTTPHost c +:+ ":"
  +:+ Listen_HTTPPort c +:+ "/".

Definition GRPCEndpoint (c : AppConfig) (project : bunapp.Project) : string :=
  Site_Scheme c +:+ "://" +:+ Listen_GRPCHost c +:+ ":" +:+ Listen_GRPCPort c.

Definition HTTPEndpoint (c : AppConfig) (project : bunapp.Project) : string :=
  Site_Scheme c +:+ "://" +:+ Listen_HTTPHost c +:+ ":" +:+ Listen_HTTPPort c.

End config.

(** ** More sample inputs *)

Module MoreSamples.

(** The configuration of example/docker/uptrace.yml, as decoded. *)
Definition dockerConfig : config.AppConfig :=
  {| config.Filepath := ""; config.Service := ""; config.Debug := false;
     config.SecretKey := "changeme"; config.Site_Scheme := "http";
     config.Site_Host := "localhost"; config.Listen_HTTP := ":14318";
     config.Listen_GRPC := ":14317"; config.Listen_HTTPHost := "";
     config.Listen_HTTPPort := ""; config.Listen_GRPCHost := "";
     config.Listen_GRPCPort := "";
     config.DB_DSN := "";
     config.CH_DSN :=
       "clickhouse://default:@clickhouse:9000/uptrace?sslmode=disable";
     config.Retention_TTL := "30 DAY";
     config.Users :=
       [ {| config.ID := 1; config.Username := "uptrace";
            config.Password := "uptrace" |} ];
     config.Projects :=
       [ {| bunapp.ID := 1; bunapp.Name := "Uptrace";
            bunapp.Token := "secret_token" |};
         {| bunapp.ID := 2; bunapp.Name := "My project";
            bunapp.Token := "secret_token" |} ];
     config.SampleRows := 10000000; config.MaxRowsToRead := 12000000;
     config.MaxBytesToRead := 4000000000 |}.

(** A file system with one file, and an address splitter for addresses
    of the shape [host:port] without brackets. *)
Definition sampleAbs (f : string) : string + error := inl ("/etc/" +:+ f).
Definition sampleReadFile (f : string) : string + error :=
  if decide (f = "/etc/uptrace.yml") then inl "yaml"
  else inr (PlainError "no such file").
Definition sampleUnmarshal (b : string) : config.AppConfig + error :=
  inl dockerConfig.

Fixpoint splitColon (host : string) (s : string) : (string * string) + error :=
  match s with
  | EmptyString => inr (PlainError "missing port in address")
  | String c r =>
      if decide (c = ":"%char) then inl (host, r)
      else splitColon (host +:+ String c "") r
  end.

Definition sampleSplit : string -> (string * string) + error :=
  splitColon "".

Definition sampleRead :=
  config.ReadConfig sampleAbs sampleReadFile sampleUnmarshal sampleSplit.

(** A file that decodes to a configuration without users, without
    projects and with an address without a port. *)
Definition brokenConfig : config.AppConfig :=
  {| config.Filepath := ""; config.Service := "from-file";
     config.Debug := false; config.SecretKey := "";
     config.Site_Scheme := "http"; config.Site_Host := "localhost";
     config.Listen_HTTP := "nowhere"; config.Listen_GRPC := "";
     config.Listen_HTTPHost := ""; config.Listen_HTTPPort := "";
     config.Listen_GRPCHost := ""; config.Listen_GRPCPort := "";
     config.DB_DSN := ""; config.CH_DSN := ""; config.Retention_TTL := "";
     config.Users := []; config.Projects := [];
     config.SampleRows := 0; config.MaxRowsToRead := 0;
     config.MaxBytesToRead := 0 |}.

Definition marshalName (span : Span) : string := Name span.
Definition storeDown (i : Flusher.insert) : option error :=
  Some (PlainError "connection refused").

(** A producer span with a message event and a db.statement. *)
Definition messageSpan : otlpSpan :=
  {| project := Samples.proj;
     wire :=
       tracepb.Span.Make
         [1;2;3;4;5;6;7;8;9;10;11;12;13;14;15;16]%Z [1;0;0;0;0;0;0;0]%Z []
         "orders" tracepb.SPAN_KIND_PRODUCER 1000 1500
         [("db.system", VString "postgresql");
          ("db.statement", VString "INSERT INTO outbox VALUES (1)")]
         [tracepb.Span_Event.Make "message" 1200
            [("messaging.operation", VString "send")];
          tracepb.Span_Event.Make "log" 1300
            [("log.message", VString "queued");
             ("exception.type", VString "Ignored")]]
         [] None;
     resource := ∅ |}.

(** Two instrumentation libraries under one resource. *)
Definition twoLibraries : collectortrace.ResourceSpans :=
  {| collectortrace.Resource :=
       Some {| resourcepb.Attributes := [("service.name", VString "api")] |};
     collectortrace.LibrarySpans :=
       [ {| collectortrace.Library :=
              Some {| collectortrace.Name := "otelsql";
                      collectortrace.Version := "1.2" |};
            collectortrace.Spans := [wire (Samples.sqlSpan "SELECT 1")] |};
         {| collectortrace.Library :=
              Some {| collectortrace.Name := "otelhttp";
                      collectortrace.Version := "" |};
            collectortrace.Spans := [wire Samples.homeSpan] |} ] |}.

(** A request whose second ResourceSpans came without a resource, and a
    channel that takes one more item. *)
Definition resourceless : collectortrace.ExportTraceServiceRequest :=
  {| collectortrace.Resources :=
       [ twoLibraries;
         {| collectortrace.Resource := None;
            collectortrace.LibrarySpans :=
              [ {| collectortrace.Library := None;
                   collectortrace.Spans := [wire Samples.childSpan] |} ] |} ]
  |}.

Definition fullChan : Ingress.chanState :=
  {| Ingress.sent := []; Ingress.store := []; Ingress.room := 1 |}.

(** A tokenizer that takes the whole statement for one identifier. *)
Definition wholeTokenizer : sqlparser.Tokenizer :=
  {| sqlparser.IdentToken := 1;
     sqlparser.tokens :=
       fun s => [ {| sqlparser.Typ := 1; sqlparser.Text := s |} ] |}.

Definition items (n : nat) : list otlpSpan :=
  replicate n (Samples.sqlSpan "SELECT 1").

(** The span [Samples.sqlSpan "SELECT 1"] sent again from another
    project, in another trace, at another time, with a status and an
    event, and with [service.name] moved from the resource to the
    span. *)
Definition sqlSpanElsewhere : otlpSpan :=
  {| project :=
       {| bunapp.ID := 9; bunapp.Name := "other"; bunapp.Token := "t9" |};
     wire :=
       tracepb.Span.Make
         [9;9;9;9;9;9;9;9;9;9;9;9;9;9;9;9]%Z [2;0;0;0;0;0;0;0]%Z []
         "query" tracepb.SPAN_KIND_CLIENT 5000 9000
         [("service.name", VString "api");
          ("db.system", VString "postgresql");
          ("db.sql.table", VString "users");
          ("db.statement", VString "SELECT 1")]
         [Samples.anEvent] []
         (Some (tracepb.Status.Make tracepb.STATUS_CODE_ERROR "boom"));
     resource := ∅ |}.

End MoreSamples.

(** * Properties *)

(** ** XXH64 test vectors *)

Example xxh_empty : xxhash.Sum64 "" = 0xEF46DB3751D8E999.
Proof. vm_compute. reflexivity. Qed.

Example xxh_a : xxhash.Sum64 "a" = 0xD24EC4F1A98C6E5B.
Proof. vm_compute. reflexivity. Qed.

Example xxh_asdf : xxhash.Sum64 "asdf" = 0x415872f599cea71e.
Proof. vm_compute. reflexivity. Qed.

Example xxh_stripes :
  xxhash.Sum64 "Call me Ishmael. Some years ago--never mind how long precisely-"
  = 0x02a2e85470d6fd96.
Proof. vm_compute. reflexivity. Qed.

(** ** The keyword test *)

(** The keyword test follows [strings.ToUpper]: it is blind to the case of
    ASCII letters, and it takes the long s (U+017F) for an S and the
    dotless i (U+0131) for an I. *)
Example keyword_any_case :
isSQLKeyword "select" = true /\ isSQLKeyword "SeLeCt" = true
/\ isSQLKeyword "selects" = false /\ isSQLKeyword "" = false.
Proof. vm_compute. repeat split. Qed.

Example keyword_long_s :
isSQLKeyword (String (ascii_of_nat 197) (String (ascii_of_nat 191) "elect"))
= true.
Proof. vm_compute. reflexivity. Qed.

Example keyword_dotless_i :
isSQLKeyword
  (String "l" (String (ascii_of_nat 196) (String (ascii_of_nat 177)
     (String "m" (String (ascii_of_nat 196) (String (ascii_of_nat 177)
        "t"))))))
= true.
Proof. vm_compute. reflexivity. Qed.

(** Another rune outside ASCII, here e with an acute accent, or a byte
    that is not UTF-8, makes no keyword. *)
Example keyword_other_rune :
isSQLKeyword (String "s" (String (ascii_of_nat 195) (String (ascii_of_nat 169)
                "lect")))
= false
/\ isSQLKeyword (String (ascii_of_nat 197) "elect") = false.
Proof. vm_compute. split; reflexivity. Qed.

(** ** Strings *)

Lemma append_nil_l (s : string) : "" +:+ s = s.
Proof. reflexivity. Qed.

Lemma append_cons (c : ascii) (s t : string) :
  String c s +:+ t = String c (s +:+ t).
Proof. reflexivity. Qed.

Lemma append_nil_r (s : string) : s +:+ "" = s.
Proof.
  induction s as [|c s IH]; [reflexivity|]. now rewrite append_cons, IH.
Qed.

Lemma append_assoc (a b c : string) : (a +:+ b) +:+ c = a +:+ b +:+ c.
Proof.
  induction a as [|x a IH]; [reflexivity|]. now rewrite !append_cons, IH.
Qed.

Lemma length_substring_le (s : string) (n m : nat) :
  (String.length (String.substring n m s) <= m)%nat.
Proof.
  revert n m. induction s as [|c s IH]; intros [|n] [|m]; simpl; try lia.
  - specialize (IH 0%nat m). lia.
  - apply (IH n 0%nat).
  - apply (IH n (S m)).
Qed.

Lemma HasPrefix_append (pre s : string) : HasPrefix (pre +:+ s) pre = true.
Proof.
  unfold HasPrefix. apply bool_decide_eq_true.
  induction pre as [|c pre IH].
  - rewrite append_nil_l. destruct s; reflexivity.
  - rewrite append_cons. simpl. now rewrite IH.
Qed.

(** ** Fingerprinter *)

Section FingerprinterFacts.
Context `{tk : sqlparser.Tokenizer}.

Lemma hashDBStmt_keywords (d : xxhash.Digest) (stmt : string) :
  hashDBStmt d stmt = d +:+ String.concat "" (keywordTokens stmt).
Proof.
  unfold hashDBStmt, keywordTokens.
  revert d. induction (sqlparser.tokens stmt) as [|t l IH]; intros d; simpl.
  - now rewrite append_nil_r.
  - rewrite IH. clear IH.
    destruct (bool_decide _ && isSQLKeyword _); simpl; [|reflexivity].
    unfold xxhash.WriteString. rewrite append_assoc. f_equal.
    destruct (map _ _); simpl; [now rewrite append_nil_r | reflexivity].
Qed.

(** What [assignSystemAndGroupID] does to the span and to the digest. *)
Lemma assign_spec (span : Span) (d : xxhash.Digest) :
  let r := ruleOf (Attrs span) (ParentID span) (Kind span) in
  let stmt := AttrMap.Text (Attrs span) xattr.DBStatement in
  assignSystemAndGroupID span d
  = (set_System (systemOf r (Attrs span))
       (match r with
        | RuleDB => if decide (stmt <> "") then set_Name stmt span else span
        | _ => span
        end),
     d +:+ systemOf r (Attrs span) +:+ dbExtras r (Attrs span)).
Proof.
  unfold assignSystemAndGroupID, ruleOf, xxhash.WriteString.
  destruct (decide (AttrMap.Text (Attrs span) xattr.RPCSystem <> ""));
    [simpl; now rewrite append_nil_r|].
  destruct (decide (AttrMap.Text (Attrs span) xattr.MessagingSystem <> ""));
    [simpl; now rewrite append_nil_r|].
  destruct (decide (AttrMap.Text (Attrs span) xattr.DBSystem <> "")).
  { cbn [Attrs set_System System systemOf dbExtras].
    unfold statementKeywords.
    set (stmt := AttrMap.Text (Attrs span) xattr.DBStatement).
    set (tbl := AttrMap.Text (Attrs span) xattr.DBSqlTable).
    destruct (decide (tbl <> "")) as [Ht|Ht];
      [|apply dec_stable in Ht; rewrite Ht];
      (destruct (decide (stmt <> "")) as [Hs|Hs];
       [ rewrite (decide_False (P := stmt = "")) by exact Hs;
         rewrite hashDBStmt_keywords
       | apply dec_stable in Hs; rewrite Hs;
         rewrite (decide_True (P := "" = "")) by reflexivity;
         cbn [String.concat] ]);
      rewrite ?append_assoc, ?append_nil_r, ?append_nil_l; reflexivity. }
  destruct (AttrMap.Has (Attrs span) xattr.HTTPRoute
            || AttrMap.Has (Attrs span) xattr.HTTPTarget);
    [simpl; now rewrite append_nil_r|].
  destruct (decide (ParentID span = 0 \/ Kind span <> internalSpanKind))
    as [H|H].
  - assert (bool_decide (ParentID span = 0)
            || negb (bool_decide (Kind span = internalSpanKind)) = true)
      as ->.
    { destruct H as [H|H].
      - rewrite bool_decide_eq_true_2 by exact H. reflexivity.
      - rewrite (bool_decide_eq_false_2 _ H). apply orb_true_r. }
    simpl. now rewrite append_nil_r.
  - assert (bool_decide (ParentID span = 0)
            || negb (bool_decide (Kind span = internalSpanKind)) = false)
      as ->.
    { apply orb_false_iff. split.
      - apply bool_decide_eq_false_2. tauto.
      - apply negb_false_iff, bool_decide_eq_true_2.
        destruct (decide (Kind span = internalSpanKind)); tauto. }
    simpl. now rewrite append_nil_r.
Qed.

End FingerprinterFacts.

Lemma otlpSetAttrs_snoc (dest : AttrMap) (kvs : list commonpb.KeyValue)
  (kv : commonpb.KeyValue) :
otlpSetAttrs dest (kvs ++ [kv]) = <[kv.1 := kv.2]> (otlpSetAttrs dest kvs).
Proof. unfold otlpSetAttrs. now rewrite foldl_snoc. Qed.

(** A key that the span does not set keeps the value of the resource. *)
Lemma otlpSetAttrs_lookup_other (dest : AttrMap)
  (kvs : list commonpb.KeyValue) (k : string) :
(forall v, (k, v) ∉ kvs) -> otlpSetAttrs dest kvs !! k = dest !! k.
Proof.
induction kvs as [|[k0 v0] kvs IH] using rev_ind; intros H; [reflexivity|].
rewrite otlpSetAttrs_snoc. cbn [fst snd].
rewrite lookup_insert_ne.
- apply IH. intros v Hv. apply (H v), elem_of_app. now left.
- intros ->. apply (H v0), elem_of_app. right. constructor.
Qed.

(** A key that the span sets to one value gets that value, whatever the
    destination held. *)
Lemma otlpSetAttrs_lookup_set (dest : AttrMap)
  (kvs : list commonpb.KeyValue) (k : string) (B : AttrValue) :
(k, B) ∈ kvs ->
(forall B', (k, B') ∈ kvs -> B' = B) ->
otlpSetAttrs dest kvs !! k = Some B.
Proof.
induction kvs as [|[k0 v0] kvs IH] using rev_ind; intros Hin Huniq.
- inversion Hin.
- rewrite otlpSetAttrs_snoc. cbn [fst snd].
  destruct (decide (k0 = k)) as [->|Hne].
  + rewrite lookup_insert_eq. f_equal. apply Huniq, elem_of_app.
    right. constructor.
  + rewrite lookup_insert_ne by exact Hne.
    apply IH.
    * apply elem_of_app in Hin as [Hin|Hin]; [exact Hin|].
      apply list_elem_of_singleton in Hin. congruence.
    * intros B' HB'. apply Huniq, elem_of_app. now left.
Qed.

(** Copying a map entry by entry gives the map. *)
Lemma copyAttrs_id (m : AttrMap) : copyAttrs m = m.
Proof.
apply map_eq. intros k.
change (copyAttrs m) with (otlpSetAttrs ∅ (map_to_list m)).
destruct (m !! k) as [v|] eqn:E.
- apply otlpSetAttrs_lookup_set.
  + now apply elem_of_map_to_list.
  + intros v' Hv'. apply elem_of_map_to_list in Hv'. congruence.
- rewrite otlpSetAttrs_lookup_other; [apply lookup_empty|].
  intros v Hv. apply elem_of_map_to_list in Hv. congruence.
Qed.

Section BuilderFacts.
Context `{tk : sqlparser.Tokenizer}.

Ltac build_field :=
  unfold buildSpan, newSpan; rewrite copyAttrs_id, assign_spec; cbv zeta;
  cbn [Attrs ParentID Kind];
  destruct (ruleOf _ _ _); try reflexivity;
  destruct (decide _); reflexivity.

Lemma buildSpan_Duration (item : otlpSpan) :
Duration (buildSpan item)
= Bits.int64 (Bits.sub64 (tracepb.Span.EndTimeUnixNano (wire item))
                         (tracepb.Span.StartTimeUnixNano (wire item))).
Proof. build_field. Qed.

Lemma buildSpan_StatusCode (item : otlpSpan) :
StatusCode (buildSpan item)
= match tracepb.Span.Status (wire item) with
  | Some st => otlpStatusCode (tracepb.Status.Code st)
  | None => ""
  end.
Proof. build_field. Qed.

Lemma buildSpan_StatusMessage (item : otlpSpan) :
StatusMessage (buildSpan item)
= match tracepb.Span.Status (wire item) with
  | Some st => tracepb.Status.Message st
  | None => ""
  end.
Proof. build_field. Qed.

Lemma buildSpan_ProjectID (item : otlpSpan) :
ProjectID (buildSpan item) = bunapp.ID (project item).
Proof. build_field. Qed.

Lemma buildSpan_Attrs (item : otlpSpan) :
  Attrs (buildSpan item) = mergedAttrs item.
Proof.
  unfold buildSpan, newSpan. rewrite copyAttrs_id, assign_spec. cbv zeta.
  cbn [Attrs ParentID Kind].
  destruct (ruleOf _ _ _); try reflexivity.
  destruct (decide _); reflexivity.
Qed.

Lemma buildSpan_Kind (item : otlpSpan) :
  Kind (buildSpan item) = otlpSpanKind (tracepb.Span.Kind (wire item)).
Proof.
  unfold buildSpan, newSpan. rewrite copyAttrs_id, assign_spec. cbv zeta.
  cbn [Attrs ParentID Kind].
  destruct (ruleOf _ _ _); try reflexivity.
  destruct (decide _); reflexivity.
Qed.

Lemma buildSpan_ParentID (item : otlpSpan) :
  ParentID (buildSpan item)
  = otlpSpanID (tracepb.Span.ParentSpanId (wire item)).
Proof.
  unfold buildSpan, newSpan. rewrite copyAttrs_id, assign_spec. cbv zeta.
  cbn [Attrs ParentID Kind].
  destruct (ruleOf _ _ _); try reflexivity.
  destruct (decide _); reflexivity.
Qed.

Lemma buildSpan_System (item : otlpSpan) :
  System (buildSpan item) = systemOf (itemRule item) (mergedAttrs item).
Proof.
  unfold buildSpan, newSpan. rewrite copyAttrs_id, assign_spec. reflexivity.
Qed.

(** The name of the built span: the statement under the db rule when
    there is one, the wire name otherwise. *)
Lemma buildSpan_Name (item : otlpSpan) :
  Name (buildSpan item)
  = match itemRule item with
    | RuleDB =>
        let stmt := AttrMap.Text (mergedAttrs item) xattr.DBStatement in
        if decide (stmt <> "") then stmt
        else tracepb.Span.Name (wire item)
    | _ => tracepb.Span.Name (wire item)
    end.
Proof.
  unfold buildSpan, newSpan, itemRule, mergedAttrs.
  rewrite copyAttrs_id, assign_spec. cbv zeta. cbn [Attrs ParentID Kind].
  destruct (ruleOf _ _ _); try reflexivity.
  destruct (decide _); reflexivity.
Qed.

Lemma buildSpan_GroupID (item : otlpSpan) :
  GroupID (buildSpan item)
  = fingerprint (otlpSpanKind (tracepb.Span.Kind (wire item)))
                (tracepb.Span.Name (wire item))
                (systemOf (itemRule item) (mergedAttrs item))
                (dbExtras (itemRule item) (mergedAttrs item)).
Proof.
  unfold buildSpan, newSpan, fingerprint. rewrite copyAttrs_id, assign_spec.
  cbv zeta. cbn [GroupID set_GroupID Attrs ParentID Kind Name].
  unfold xxhash.WriteString, xxhash.New.
  rewrite append_nil_l, !append_assoc. reflexivity.
Qed.

End BuilderFacts.

Section FingerprintClaims.
Context `{tk : sqlparser.Tokenizer}.

(** C1 (amended): for every built span, GroupID is the 64-bit xxHash of
    the concatenation, in this order, of the span's Kind, the Name the
    span has on the wire (the name before the db.statement rule rewrites
    it), its System string, and the db-specific extras: the db.sql.table
    text, then the SQL keyword tokens of db.statement. *)
Theorem C1_group_id_hashes_wire_name (item : otlpSpan) :
  let sp := buildSpan item in
  GroupID sp
  = fingerprint (Kind sp) (tracepb.Span.Name (wire item)) (System sp)
      (dbExtras (ruleOf (Attrs sp) (ParentID sp) (Kind sp)) (Attrs sp)).
Proof.
  cbv zeta.
  rewrite buildSpan_GroupID, buildSpan_Kind, buildSpan_System,
    buildSpan_Attrs, buildSpan_ParentID.
  reflexivity.
Qed.

Lemma Text_delete_ne (m : AttrMap) (k k' : string) :
  k <> k' -> AttrMap.Text (delete k m) k' = AttrMap.Text m k'.
Proof. intros H. unfold AttrMap.Text. now rewrite lookup_delete_ne. Qed.

Lemma Has_delete_ne (m : AttrMap) (k k' : string) :
  k <> k' -> AttrMap.Has (delete k m) k' = AttrMap.Has m k'.
Proof. intros H. unfold AttrMap.Has. now rewrite lookup_delete_ne. Qed.

(** The rule, the system and the table text do not look at
    [db.statement]. *)
Lemma ruleOf_delete_statement (m : AttrMap) (parentID : Z) (kind : string) :
  ruleOf (delete xattr.DBStatement m) parentID kind = ruleOf m parentID kind.
Proof.
  unfold ruleOf.
  rewrite !Text_delete_ne, !Has_delete_ne by discriminate. reflexivity.
Qed.

Lemma systemOf_delete_statement (r : rule) (m : AttrMap) :
  systemOf r (delete xattr.DBStatement m) = systemOf r m.
Proof.
  destruct r; unfold systemOf, AttrMap.ServiceName;
    rewrite ?Text_delete_ne by discriminate; reflexivity.
Qed.

(** C2: two built spans that are identical except for their db.statement
    attribute, and whose statements have the same sequence of SQL keyword
    tokens, receive equal GroupID values: the other tokens of the
    statement do not reach the fingerprint. *)
Theorem C2_same_keywords_same_group (a b : otlpSpan) :
  sameButStatement a b ->
  statementKeywords (mergedAttrs a) = statementKeywords (mergedAttrs b) ->
  GroupID (buildSpan a) = GroupID (buildSpan b).
Proof.
  intros (_ & _ & _ & Hp & Hn & Hk & _ & _ & _ & _ & _ & Hm) Hkw.
  rewrite !buildSpan_GroupID. unfold itemRule.
  rewrite <- Hp, <- Hn, <- Hk.
  set (pid := otlpSpanID _). set (kind := otlpSpanKind _).
  assert (ruleOf (mergedAttrs b) pid kind = ruleOf (mergedAttrs a) pid kind)
    as ->.
  { rewrite <- (ruleOf_delete_statement (mergedAttrs b)), <- Hm.
    apply ruleOf_delete_statement. }
  set (r := ruleOf _ _ _).
  assert (systemOf r (mergedAttrs b) = systemOf r (mergedAttrs a)) as ->.
  { rewrite <- (systemOf_delete_statement r (mergedAttrs b)), <- Hm.
    apply systemOf_delete_statement. }
  assert (dbExtras r (mergedAttrs b) = dbExtras r (mergedAttrs a)) as ->.
  { destruct r; try reflexivity. unfold dbExtras. rewrite Hkw. f_equal.
    rewrite <- (Text_delete_ne (mergedAttrs b) xattr.DBStatement)
      by discriminate.
    rewrite <- Hm. apply Text_delete_ne. discriminate. }
  reflexivity.
Qed.

End FingerprintClaims.

Section FingerprintRuns.
Import SampleSQL.

(** C1 as stated fails: the name that is hashed is the wire name, not the
  statement that replaces it.  A client span named "query" with a
  db.statement ends with the statement as its Name, but its GroupID is
  not the hash over that Name. *)
Lemma C1_counterexample :
let sp :=
  buildSpan (Samples.sqlSpan "SELECT * FROM users WHERE id = 1") in
Name sp = "SELECT * FROM users WHERE id = 1"
/\ GroupID sp
   <> fingerprint (Kind sp) (Name sp) (System sp)
        (dbExtras (ruleOf (Attrs sp) (ParentID sp) (Kind sp)) (Attrs sp)).
Proof. vm_compute. split; [reflexivity | discriminate]. Qed.

Lemma C2_witness :
GroupID (buildSpan (Samples.sqlSpan "SELECT * FROM users WHERE id = 1"))
= GroupID (buildSpan (Samples.sqlSpan "SELECT * FROM users WHERE id = 42")).
Proof.
apply C2_same_keywords_same_group.
- repeat split; vm_compute; reflexivity.
- vm_compute. reflexivity.
Defined.

(** A statement that is one identifier with a long s, "ſelect", is a
    keyword token for the code and reaches the fingerprint. *)
Example long_s_keyword_is_hashed :
let long_s := String (ascii_of_nat 197) (String (ascii_of_nat 191) "elect") in
keywordTokens (tk := MoreSamples.wholeTokenizer) long_s = [long_s]
/\ GroupID (buildSpan (tk := MoreSamples.wholeTokenizer)
              (Samples.sqlSpan long_s))
   <> GroupID (buildSpan (tk := MoreSamples.wholeTokenizer)
                 (Samples.sqlSpan "x")).
Proof. vm_compute. split; [reflexivity | discriminate]. Qed.

(** The keyword tokens are hashed as they are written: the same statement
  in another case is another group. *)
Example keyword_case_matters :
GroupID (buildSpan (Samples.sqlSpan "SELECT 1"))
<> GroupID (buildSpan (Samples.sqlSpan "select 1")).
Proof. vm_compute. discriminate. Qed.

End FingerprintRuns.

(** ** The scenarios of the specification *)

Section Scenarios.
Import SampleSQL.

Example scenario_S1 :
let a := buildSpan (Samples.sqlSpan "SELECT * FROM users WHERE id = 1") in
let b := buildSpan (Samples.sqlSpan "SELECT * FROM users WHERE id = 42") in
System a = "db:postgresql" /\ System b = "db:postgresql"
/\ GroupID a = GroupID b
/\ Name a = "SELECT * FROM users WHERE id = 1"
/\ Name b = "SELECT * FROM users WHERE id = 42".
Proof. vm_compute. repeat split. Qed.

Example scenario_S2 : System (buildSpan Samples.homeSpan) = "service:web".
Proof. vm_compute. reflexivity. Qed.

Example scenario_S4_S5 :
map SpanEvent.Name (Events (buildSpan Samples.failingSpan))
= ["IOError: disk full"; "ERROR failed"].
Proof. vm_compute. reflexivity. Qed.

Example scenario_S6 : System (buildSpan Samples.childSpan) = "internal".
Proof. vm_compute. reflexivity. Qed.

End Scenarios.

(** ** Span builder *)

Lemma int64_sub64 (e s : Z) :
- 2 ^ 63 <= e - s < 2 ^ 63 -> Bits.int64 (Bits.sub64 e s) = e - s.
Proof.
intros H. unfold Bits.int64, Bits.sub64, Bits.u64.
rewrite Z.mod_mod by lia.
destruct (Z_le_gt_dec 0 (e - s)) as [Hd|Hd].
- rewrite Z.mod_small by lia. destruct (Z_lt_dec _ _); lia.
- replace ((e - s) mod 2 ^ 64) with (e - s + 2 ^ 64).
  + destruct (Z_lt_dec _ _); lia.
  + symmetry. rewrite <- (Z_mod_plus_full (e - s) 1 (2 ^ 64)).
    apply Z.mod_small. lia.
Qed.

Section BuilderClaims.
Context `{tk : sqlparser.Tokenizer}.

(** C3 (amended): the built span's Duration is EndTimeUnixNano minus
    StartTimeUnixNano as a signed number, whenever that difference fits
    64 signed bits: it is not negative when the end is not before the
    start, and it is the negative difference, not 0, when the end is
    before the start. *)
Theorem C3_duration_is_signed_difference (item : otlpSpan) :
let e := tracepb.Span.EndTimeUnixNano (wire item) in
let s := tracepb.Span.StartTimeUnixNano (wire item) in
- 2 ^ 63 <= e - s < 2 ^ 63 ->
Duration (buildSpan item) = e - s.
Proof.
cbv zeta. intros H. rewrite buildSpan_Duration. now apply int64_sub64.
Qed.

(** C10: a wire span without a Status gives a built span whose StatusCode
    and StatusMessage are both the empty string; and the StatusCode of a
    built span is "unset" only when a Status is present with code unset. *)
Theorem C10_absent_status_is_empty (item : otlpSpan) :
tracepb.Span.Status (wire item) = None ->
(StatusCode (buildSpan item) = "" /\ StatusMessage (buildSpan item) = "")
/\ (forall other : otlpSpan,
      StatusCode (buildSpan other) = "unset"
      <-> exists st, tracepb.Span.Status (wire other) = Some st
                     /\ tracepb.Status.Code st = tracepb.STATUS_CODE_UNSET).
Proof.
intros H. split.
- rewrite buildSpan_StatusCode, buildSpan_StatusMessage, H. split; reflexivity.
- intros other. rewrite buildSpan_StatusCode. split.
  + destruct (tracepb.Span.Status (wire other)) as [st|]; [|discriminate].
    intros Hc. exists st. split; [reflexivity|].
    destruct (tracepb.Status.Code st); try reflexivity; discriminate.
  + intros (st & -> & ->). reflexivity.
Qed.

End BuilderClaims.

Section BuilderRuns.
Import SampleSQL.

(** C3 as stated fails: a span that ends 500 ns before it starts gets the
    Duration -500, not 0. *)
Lemma C3_counterexample :
Duration (buildSpan Samples.backwardsSpan) = -500
/\ Duration (buildSpan Samples.backwardsSpan)
   <> saturatingDuration (wire Samples.backwardsSpan).
Proof. vm_compute. split; [reflexivity | discriminate]. Qed.

Lemma C3_witness :
Duration (buildSpan Samples.backwardsSpan) = 1000 - 1500.
Proof.
apply (C3_duration_is_signed_difference Samples.backwardsSpan).
simpl. lia.
Defined.

Lemma C10_witness :
(StatusCode (buildSpan Samples.backwardsSpan) = ""
 /\ StatusMessage (buildSpan Samples.backwardsSpan) = "")
/\ (forall other : otlpSpan,
      StatusCode (buildSpan other) = "unset"
      <-> exists st, tracepb.Span.Status (wire other) = Some st
                     /\ tracepb.Status.Code st = tracepb.STATUS_CODE_UNSET).
Proof.
apply (C10_absent_status_is_empty Samples.backwardsSpan). reflexivity.
Defined.

End BuilderRuns.

Section MergeClaims.
Context `{tk : sqlparser.Tokenizer}.

(** C5 (amended): classification is a priority cascade, the first
    matching rule in the order rpc, messaging, db, http, service-fallback,
    internal decides System; in particular every built span whose
    rpc.system attribute is a non-empty string gets a System that begins
    with "rpc:", whether or not http.route or http.target is set. *)
Theorem C5_rpc_text_decides_first (item : otlpSpan) :
AttrMap.Text (Attrs (buildSpan item)) xattr.RPCSystem <> "" ->
(System (buildSpan item)
 = "rpc:" +:+ AttrMap.ServiceName (Attrs (buildSpan item))
 /\ HasPrefix (System (buildSpan item)) "rpc:" = true)
/\ (forall other : otlpSpan,
      let sp := buildSpan other in
      System sp
      = systemOf (ruleOf (Attrs sp) (ParentID sp) (Kind sp)) (Attrs sp)).
Proof.
intros H. split.
- rewrite buildSpan_Attrs in H. rewrite buildSpan_System, buildSpan_Attrs.
  unfold itemRule, ruleOf. rewrite decide_True by exact H.
  split; [reflexivity | apply HasPrefix_append].
- intros other. cbv zeta.
  rewrite buildSpan_System, buildSpan_Attrs, buildSpan_ParentID,
    buildSpan_Kind.
  reflexivity.
Qed.

(** C6: for every key present in the resource attributes (with value A)
    and in the span's own attributes (with value B), the merged Attrs of
    the built span maps the key to B.  The resource attributes are copied
    first: the copy holds A under the key before the span attributes are
    laid over it, and every key that the span does not set keeps the value
    of the resource in the built span. *)
Theorem C6_span_attribute_wins (item : otlpSpan) (k : string)
  (A B : AttrValue) :
resource item !! k = Some A ->
(k, B) ∈ tracepb.Span.Attributes (wire item) ->
(forall B', (k, B') ∈ tracepb.Span.Attributes (wire item) -> B' = B) ->
copyAttrs (resource item) !! k = Some A
/\ Attrs (buildSpan item) !! k = Some B
/\ (forall k',
      (forall v, (k', v) ∉ tracepb.Span.Attributes (wire item)) ->
      Attrs (buildSpan item) !! k' = resource item !! k').
Proof.
intros HA Hin Huniq. split; [|split].
- now rewrite copyAttrs_id.
- rewrite buildSpan_Attrs. now apply otlpSetAttrs_lookup_set.
- intros k' Hk'. rewrite buildSpan_Attrs.
  now apply otlpSetAttrs_lookup_other.
Qed.

End MergeClaims.

Section MergeRuns.
Import SampleSQL.

(** C5 as stated fails: with rpc.system set to the empty string and
    http.route set, the http rule decides. *)
Lemma C5_counterexample :
let sp := buildSpan Samples.emptyRPCSpan in
AttrMap.Has (Attrs sp) xattr.RPCSystem = true
/\ AttrMap.Has (Attrs sp) xattr.HTTPRoute = true
/\ System sp = "http:api"
/\ HasPrefix (System sp) "rpc:" = false.
Proof. vm_compute. repeat split; reflexivity. Qed.

Lemma C5_witness :
(System (buildSpan Samples.grpcSpan)
 = "rpc:" +:+ AttrMap.ServiceName (Attrs (buildSpan Samples.grpcSpan))
 /\ HasPrefix (System (buildSpan Samples.grpcSpan)) "rpc:" = true)
/\ (forall other : otlpSpan,
      let sp := buildSpan other in
      System sp
      = systemOf (ruleOf (Attrs sp) (ParentID sp) (Kind sp)) (Attrs sp)).
Proof.
apply (C5_rpc_text_decides_first Samples.grpcSpan).
vm_compute. discriminate.
Defined.

Lemma C6_witness :
copyAttrs (resource Samples.collidingSpan) !! "env" = Some (VString "A")
/\ Attrs (buildSpan Samples.collidingSpan) !! "env" = Some (VString "B")
/\ (forall k',
      (forall v,
         (k', v) ∉ tracepb.Span.Attributes (wire Samples.collidingSpan)) ->
      Attrs (buildSpan Samples.collidingSpan) !! k'
      = resource Samples.collidingSpan !! k').
Proof.
apply (C6_span_attribute_wins Samples.collidingSpan "env"
         (VString "A") (VString "B")).
- vm_compute. reflexivity.
- simpl. constructor.
- simpl. intros B' HB'. apply list_elem_of_singleton in HB'. congruence.
Defined.

(** A key that only the resource sets is in the merged map. *)
Example resource_attribute_is_copied :
Attrs (buildSpan Samples.homeSpan) !! "service.name" = Some (VString "web").
Proof. vm_compute. reflexivity. Qed.

End MergeRuns.

(** ** Index projection *)

Lemma runeStart_le (s : string) (i : nat) : (runeStart s i <= i)%nat.
Proof.
induction i as [|i IH]; simpl; [lia|].
destruct (String.get (S i) s) as [c|]; [|lia].
destruct (is_continuation c); lia.
Qed.

Lemma truncate_length (s : string) (n : nat) :
(String.length (truncate s n) <= n)%nat.
Proof.
unfold truncate. destruct (decide _) as [H|H]; [exact H|].
pose proof (length_substring_le s 0 (runeStart s n)).
pose proof (runeStart_le s n). lia.
Qed.

(** A rune of two bytes is not split. *)
Example truncate_keeps_runes :
truncate (String "h" (String (ascii_of_nat 195) (String (ascii_of_nat 169)
                                                        "llo"))) 2
= "h".
Proof. vm_compute. reflexivity. Qed.

Section IndexClaims.
Variable asString : AttrValue -> string.

Lemma attrKeysAndValues_fold (l : list (string * AttrValue))
  (ks vs : list string) :
foldl (fun kvs kv =>
         (kvs.1 ++ [kv.1], kvs.2 ++ [truncate (asString kv.2) 200]))
      (ks, vs) l
= (ks ++ l.*1, vs ++ map (fun kv => truncate (asString kv.2) 200) l).
Proof.
revert ks vs. induction l as [|kv l IH]; intros ks vs; simpl.
- now rewrite !app_nil_r.
- rewrite IH. cbn [fst snd]. now rewrite <- !app_assoc.
Qed.

Lemma attrKeysAndValues_eq (m : AttrMap) :
attrKeysAndValues asString m
= ((map_to_list m).*1,
   map (fun kv => truncate (asString kv.2) 200) (map_to_list m)).
Proof. unfold attrKeysAndValues. now rewrite attrKeysAndValues_fold. Qed.

(** C7: for every built SpanIndex, AttrKeys and AttrValues have equal
    length, one entry per key of the merged Attrs map, and every entry of
    AttrValues has at most 200 bytes. *)
Theorem C7_keys_values_parallel_and_bounded (span : Span) :
let ix := newSpanIndex asString span in
length (AttrKeys ix) = length (AttrValues ix)
/\ length (AttrKeys ix) = size (Attrs span)
/\ (forall k, k ∈ AttrKeys ix <-> is_Some (Attrs span !! k))
/\ Forall (fun v => (String.length v <= 200)%nat) (AttrValues ix).
Proof.
cbv zeta. unfold newSpanIndex. cbn [AttrKeys AttrValues].
rewrite attrKeysAndValues_eq. cbn [fst snd].
repeat split.
- now rewrite length_fmap, length_map.
- now rewrite length_fmap, length_map_to_list.
- intros ((k' & v) & -> & Hkv)%list_elem_of_fmap.
  apply elem_of_map_to_list in Hkv. now exists v.
- intros (v & Hv). apply list_elem_of_fmap. exists (k, v).
  split; [reflexivity|]. now apply elem_of_map_to_list.
- apply Forall_forall. intros v Hv. apply list_elem_of_In in Hv.
  apply in_map_iff in Hv as (kv & <- & _).
  apply truncate_length.
Qed.

(** The event count is the number of events modulo 256; the two other
    counters are 0. *)
Lemma newSpanIndex_counts (span : Span) :
let ix := newSpanIndex asString span in
EventCount ix = Z.of_nat (length (Events span)) mod 256
/\ EventErrorCount ix = 0 /\ EventLogCount ix = 0.
Proof. repeat split. Qed.

End IndexClaims.

Section IndexRuns.
Import SampleSQL.

(** C8: the code does not saturate.  A span with 256 events gets the
    EventCount 0, where the claim asks for min(256, 255) = 255. *)
Theorem C8_event_count_wraps (asString : AttrValue -> string) :
let sp := buildSpan (Samples.eventfulItem 256) in
length (Events sp) = 256%nat
/\ EventCount (newSpanIndex asString sp) = 0
/\ Z.min (Z.of_nat (length (Events sp))) 255 = 255.
Proof. vm_compute. repeat split. Qed.

End IndexRuns.

(** ** Batcher *)

Module BatcherFacts.
Import Batcher.

Lemma onRecv_full (batchSize : nat) (st : state) (span : otlpSpan) :
S (length (spans st)) = batchSize ->
onRecv batchSize st span
= {| spans := []; flushed := flushed st ++ [spans st ++ [span]] |}.
Proof.
intros H. unfold onRecv, sizeCheck. cbn [spans flushed].
rewrite decide_True; [reflexivity|]. rewrite length_app. simpl. lia.
Qed.

Lemma onRecv_room (batchSize : nat) (st : state) (span : otlpSpan) :
S (length (spans st)) <> batchSize ->
onRecv batchSize st span
= {| spans := spans st ++ [span]; flushed := flushed st |}.
Proof.
intros H. unfold onRecv, sizeCheck. cbn [spans flushed].
rewrite decide_False; [reflexivity|]. rewrite length_app. simpl. lia.
Qed.

Lemma onTimer_nonempty (batchSize : nat) (st : state) :
(0 < length (spans st) < batchSize)%nat ->
onTimer batchSize st = {| spans := []; flushed := flushed st ++ [spans st] |}.
Proof.
intros H. unfold onTimer.
rewrite (decide_True (P := (0 < length (spans st))%nat)) by lia.
unfold sizeCheck, flushSpans. cbn [spans flushed].
rewrite decide_False; [reflexivity|]. simpl. lia.
Qed.

Lemma onTimer_empty (batchSize : nat) (st : state) :
(0 < batchSize)%nat -> spans st = [] -> onTimer batchSize st = st.
Proof.
intros Hb H. unfold onTimer.
rewrite (decide_False (P := (0 < length (spans st))%nat))
  by (rewrite H; simpl; lia).
unfold sizeCheck. rewrite decide_False; [reflexivity|].
rewrite H. simpl. lia.
Qed.

Lemma inv_init (batchSize : nat) : (0 < batchSize)%nat -> inv batchSize [] init.
Proof. intros H. repeat split; [exact H | constructor]. Qed.

Lemma inv_onRecv (batchSize : nat) (items : list otlpSpan) (st : state)
  (span : otlpSpan) :
inv batchSize items st ->
inv batchSize (items ++ [span]) (onRecv batchSize st span).
Proof.
intros (Hlen & Hitems & Hall).
destruct (decide (S (length (spans st)) = batchSize)) as [E|E].
- rewrite onRecv_full by exact E. repeat split; cbn [spans flushed].
  + simpl. lia.
  + rewrite concat_app. simpl. rewrite !app_nil_r, <- Hitems.
    now rewrite app_assoc.
  + apply Forall_app. split; [exact Hall|]. constructor; [|constructor].
    rewrite length_app. simpl. lia.
- rewrite onRecv_room by exact E. repeat split; cbn [spans flushed].
  + rewrite length_app. simpl. lia.
  + now rewrite app_assoc, Hitems.
  + exact Hall.
Qed.

Lemma inv_onTimer (batchSize : nat) (items : list otlpSpan) (st : state) :
inv batchSize items st -> inv batchSize items (onTimer batchSize st).
Proof.
intros (Hlen & Hitems & Hall).
destruct (spans st) as [|x l] eqn:E.
- rewrite onTimer_empty by (lia || exact E).
  repeat split; rewrite ?E; assumption.
- rewrite onTimer_nonempty by (rewrite E; simpl in *; lia).
  repeat split; cbn [spans flushed].
  + simpl. lia.
  + rewrite concat_app, E. simpl. now rewrite !app_nil_r.
  + apply Forall_app. split; [exact Hall|]. constructor; [|constructor].
    rewrite E. simpl in *. lia.
Qed.

Lemma run_snoc (batchSize : nat) (evs : list event) (ev : event) (st : state) :
run batchSize (evs ++ [ev]) st
= match ev with
  | Recv span => onRecv batchSize (run batchSize evs st) span
  | TimerFired => onTimer batchSize (run batchSize evs st)
  | Done => run batchSize evs st
  end.
Proof. unfold run. now rewrite foldl_snoc. Qed.

Lemma inv_run (batchSize : nat) (evs : list event) :
(0 < batchSize)%nat ->
inv batchSize (received evs) (run batchSize evs init).
Proof.
intros Hb. induction evs as [|ev evs IH] using rev_ind.
- now apply inv_init.
- rewrite run_snoc. unfold received in *. rewrite omap_app. simpl.
  destruct ev as [span| |].
  + now apply inv_onRecv.
  + rewrite app_nil_r. now apply inv_onTimer.
  + now rewrite app_nil_r.
Qed.

(** The loop returns at the first shutdown signal, and not before. *)
Lemma loop_until_Done (batchSize : nat) (evs rest : list event) (st : state) :
Forall (fun ev => is_Done ev = false) evs ->
loop batchSize (evs ++ Done :: rest) st = Some (drain (run batchSize evs st)).
Proof.
intros H. revert st. induction H as [|ev evs Hev _ IH]; intros st.
- reflexivity.
- destruct ev; [| |discriminate]; simpl; apply IH.
Qed.

Lemma loop_waits (batchSize : nat) (evs : list event) (st : state) :
Forall (fun ev => is_Done ev = false) evs -> loop batchSize evs st = None.
Proof.
intros H. revert st. induction H as [|ev evs Hev _ IH]; intros st.
- reflexivity.
- destruct ev; [| |discriminate]; simpl; apply IH.
Qed.

Lemma drain_eq (st : state) :
drain st = flushed st ++ (if decide (spans st = []) then [] else [spans st]).
Proof.
unfold drain, flushSpans. cbn [flushed].
destruct (decide (spans st = [])) as [E|E].
- rewrite E. simpl. now rewrite app_nil_r.
- rewrite decide_True; [reflexivity|].
  destruct (spans st); [congruence | simpl; lia].
Qed.

End BatcherFacts.

(** C9: in the batcher loop, after any sequence of arrivals and timer
    fires, (1) an arrival that brings the buffer to batchSize hands the
    buffer to the flusher as one batch of exactly batchSize items and
    starts a fresh buffer; (2) a timer fire with a non-empty buffer of
    k < batchSize items hands it over as one batch of k items; (3) on the
    shutdown signal the loop returns, having handed over the residual
    buffer when it is not empty; nothing received is lost. *)
Theorem C9_batcher_hands_over (batchSize : nat)
  (evs rest : list Batcher.event) :
(0 < batchSize)%nat ->
Forall (fun ev => Batcher.is_Done ev = false) evs ->
let st := Batcher.run batchSize evs Batcher.init in
(forall span,
   S (length (Batcher.spans st)) = batchSize ->
   Batcher.onRecv batchSize st span
   = {| Batcher.spans := [];
        Batcher.flushed :=
          Batcher.flushed st ++ [Batcher.spans st ++ [span]] |}
   /\ length (Batcher.spans st ++ [span]) = batchSize)
/\ ((length (Batcher.spans st) < batchSize)%nat
    /\ (Batcher.spans st <> [] ->
        Batcher.onTimer batchSize st
        = {| Batcher.spans := [];
             Batcher.flushed := Batcher.flushed st ++ [Batcher.spans st] |}))
/\ Batcher.processLoop batchSize evs = None
/\ (exists batches,
      Batcher.processLoop batchSize (evs ++ Batcher.Done :: rest)
      = Some batches
      /\ batches
         = Batcher.flushed st
           ++ (if decide (Batcher.spans st = []) then []
               else [Batcher.spans st])
      /\ concat batches = Batcher.received evs).
Proof.
intros Hb Hevs st.
destruct (BatcherFacts.inv_run batchSize evs Hb) as (Hlen & Hitems & Hall).
fold st in Hlen, Hitems, Hall.
split; [|split; [|split]].
- intros span E. split.
  + now apply BatcherFacts.onRecv_full.
  + rewrite length_app. simpl. lia.
- split; [exact Hlen|]. intros Hne. apply BatcherFacts.onTimer_nonempty.
  destruct (Batcher.spans st); [congruence | simpl in *; lia].
- now apply BatcherFacts.loop_waits.
- eexists. split; [|split; [reflexivity|]].
  + unfold Batcher.processLoop.
    rewrite BatcherFacts.loop_until_Done by exact Hevs.
    fold st. f_equal. apply BatcherFacts.drain_eq.
  + rewrite concat_app, <- Hitems. f_equal.
    destruct (decide _) as [->|]; simpl; [reflexivity | apply app_nil_r].
Qed.

Lemma C9_witness :
exists batches,
  Batcher.processLoop 2 (Samples.arrivals ++ Batcher.Done :: [])
  = Some batches
  /\ map (@length otlpSpan) batches = [2; 1; 1]%nat
  /\ concat batches = Batcher.received Samples.arrivals.
Proof.
destruct (C9_batcher_hands_over 2 Samples.arrivals [])
  as (_ & _ & _ & batches & Hloop & Hb & Hc).
- lia.
- repeat constructor.
- exists batches. split; [exact Hloop|]. split; [|exact Hc].
  rewrite Hb. reflexivity.
Defined.

(** ** Ingress handler *)

Module IngressFacts.
Import Ingress.

Lemma progress_nil (p : bunapp.Project) (lo hi : nat) (ch : chanState) :
progress p lo hi ch ch Completed [].
Proof.
exists []. rewrite app_nil_r.
split; [reflexivity|]. split; [reflexivity|]. split; [constructor|].
split; [apply prefix_nil|]. split; [reflexivity | discriminate].
Qed.

(** A run that stops at once. *)
Lemma progress_stuck (p : bunapp.Project) (lo hi : nat) (ch : chanState)
  (e : ending) (s : list tracepb.Span.t) :
e <> Completed -> (e = Blocked -> room ch = 0%nat) ->
progress p lo hi ch ch e s.
Proof.
intros He Hb. exists []. rewrite app_nil_r.
split; [reflexivity|]. split; [reflexivity|]. split; [constructor|].
split; [apply prefix_nil|]. split; [|exact Hb].
intros E. now destruct He.
Qed.

Lemma progress_seq (p : bunapp.Project) (lo hi : nat) (ch ch1 ch2 : chanState)
  (e : ending) (s1 s2 : list tracepb.Span.t) :
progress p lo hi ch ch1 Completed s1 ->
progress p lo hi ch1 ch2 e s2 ->
progress p lo hi ch ch2 e (s1 ++ s2).
Proof.
intros (n1 & H1 & R1 & F1 & P1 & C1 & _) (n2 & H2 & R2 & F2 & P2 & C2 & B2).
exists (n1 ++ n2). rewrite H2, H1, <- app_assoc, length_app, map_app.
rewrite (C1 eq_refl).
split; [reflexivity|]. split; [lia|]. split; [now apply Forall_app|].
split; [now apply prefix_app|]. split; [|exact B2].
intros E. now rewrite (C2 E).
Qed.

Lemma progress_stop (p : bunapp.Project) (lo hi : nat) (ch ch1 : chanState)
  (e : ending) (s1 s2 : list tracepb.Span.t) :
progress p lo hi ch ch1 e s1 -> e <> Completed ->
progress p lo hi ch ch1 e (s1 ++ s2).
Proof.
intros (n1 & H1 & R1 & F1 & P1 & _ & B1) He.
exists n1. split; [exact H1|]. split; [exact R1|]. split; [exact F1|].
split; [now apply prefix_app_r|]. split; [|exact B1].
intros E. now destruct He.
Qed.

Lemma progress_widen (p : bunapp.Project) (lo hi lo' hi' : nat)
  (ch ch1 : chanState) (e : ending) (s : list tracepb.Span.t) :
(lo' <= lo)%nat -> (hi <= hi')%nat ->
progress p lo hi ch ch1 e s -> progress p lo' hi' ch ch1 e s.
Proof.
intros Hlo Hhi (n & H & R & F & P & C & B).
exists n. split; [exact H|]. split; [exact R|].
split; [|split; [exact P|split; [exact C|exact B]]].
eapply Forall_impl; [exact F|]. intros it [Hp Hr]. split; [exact Hp | lia].
Qed.

(** The room that a completed run leaves. *)
Lemma progress_room (p : bunapp.Project) (lo hi : nat) (ch ch1 : chanState)
  (s : list tracepb.Span.t) :
progress p lo hi ch ch1 Completed s ->
(length s + room ch1 = room ch)%nat.
Proof.
intros (n & _ & R & _ & _ & C & _).
rewrite <- (C eq_refl), length_map. exact R.
Qed.

Lemma sendSpans_spec (p : bunapp.Project) (ref : nat)
  (spans : list tracepb.Span.t) (ch ch' : chanState) (e : ending) :
sendSpans p ref ch spans = (e, ch') ->
progress p ref (S ref) ch ch' e spans
/\ store ch' = store ch
/\ e <> Panicked
/\ ((length spans <= room ch)%nat -> e = Completed).
Proof.
revert ch. induction spans as [|sp rest IH]; intros ch; simpl.
- intros [= <- <-]. split; [apply progress_nil|].
  split; [reflexivity|]. split; [discriminate | reflexivity].
- destruct (room ch) as [|r] eqn:Er.
  + intros [= <- <-]. split.
    * apply progress_stuck; [discriminate | intros _; exact Er].
    * split; [reflexivity|]. split; [discriminate | lia].
  + intros H. apply IH in H as ((n & H & R & F & P & C & B) & Hs & Hp & Hc).
    cbn [sent store room] in *. split; [|split; [exact Hs|split; [exact Hp|]]].
    * exists (Build_item p sp ref :: n). rewrite H, <- app_assoc.
      split; [reflexivity|]. split; [simpl; lia|].
      split; [constructor; [simpl; split; [reflexivity | lia] | exact F]|].
      split; [simpl; now apply prefix_cons|]. split; [|exact B].
      intros E. simpl. now rewrite (C E).
    * intros Hl. apply Hc. lia.
Qed.

Lemma setResource_progress (p : bunapp.Project) (lo hi ref : nat) (k : string)
  (v : AttrValue) (ch ch' : chanState) (e : ending)
  (s : list tracepb.Span.t) :
progress p lo hi (setResource ref k v ch) ch' e s -> progress p lo hi ch ch' e s.
Proof. intros H. exact H. Qed.

Lemma processLibrary_spec (p : bunapp.Project) (ref : nat)
  (ils : collectortrace.InstrumentationLibrarySpans) (ch ch' : chanState)
  (e : ending) :
processLibrary p ref ch ils = (e, ch') ->
progress p ref (S ref) ch ch' e (collectortrace.Spans ils)
/\ length (store ch') = length (store ch)
/\ (forall n, (n <= ref)%nat -> take n (store ch') = take n (store ch))
/\ e <> Panicked
/\ ((length (collectortrace.Spans ils) <= room ch)%nat -> e = Completed).
Proof.
unfold processLibrary. intros H.
apply sendSpans_spec in H as (Hp & Hs & He & Hc).
destruct (decide _) as [Hv|Hv]; cbn [store room setResource sent] in *;
  (split; [exact Hp|]); rewrite Hs;
  (split; [now rewrite !length_alter|]);
  (split; [intros k Hk; now rewrite !take_alter_ge by exact Hk|]);
  (split; [exact He | exact Hc]).
Qed.

Lemma processLibraries_spec (p : bunapp.Project) (ref : nat)
  (libs : list collectortrace.InstrumentationLibrarySpans)
  (ch ch' : chanState) (e : ending) :
processLibraries p ref ch libs = (e, ch') ->
progress p ref (S ref) ch ch' e (concat (map collectortrace.Spans libs))
/\ length (store ch') = length (store ch)
/\ (forall n, (n <= ref)%nat -> take n (store ch') = take n (store ch))
/\ e <> Panicked
/\ ((length (concat (map collectortrace.Spans libs)) <= room ch)%nat ->
    e = Completed).
Proof.
revert ch. induction libs as [|ils rest IH]; intros ch; simpl.
- intros [= <- <-]. split; [apply progress_nil|].
  split; [reflexivity|]. split; [reflexivity|].
  split; [discriminate | reflexivity].
- destruct (processLibrary p ref ch ils) as [e1 ch1] eqn:E1.
  apply processLibrary_spec in E1 as (P1 & L1 & T1 & N1 & C1).
  destruct e1.
  + intros H. apply IH in H as (P2 & L2 & T2 & N2 & C2).
    split; [eapply progress_seq; eassumption|].
    split; [congruence|].
    split; [intros n Hn; now rewrite T2, T1|].
    split; [exact N2|]. intros Hl. apply C2.
    pose proof (progress_room _ _ _ _ _ _ P1). rewrite length_app in Hl. lia.
  + now destruct N1.
  + intros [= <- <-].
    split; [apply progress_stop; [exact P1 | discriminate]|].
    split; [exact L1|]. split; [exact T1|]. split; [discriminate|].
    intros Hl. rewrite length_app in Hl.
    assert (Blocked = Completed) by (apply C1; lia). discriminate.
Qed.

(** A run of [process]: its items, the store, and when it completes. *)
Lemma process_spec (p : bunapp.Project)
  (rsss : list collectortrace.ResourceSpans) (ch ch' : chanState)
  (e : ending) :
process p rsss ch = (e, ch') ->
progress p (length (store ch)) (length (store ch) + length rsss) ch ch' e
  (spansOf rsss)
/\ take (length (store ch)) (store ch') = store ch
/\ (length (store ch) <= length (store ch')
    <= length (store ch) + length rsss)%nat
/\ (e = Completed ->
    length (store ch') = (length (store ch) + length rsss)%nat
    /\ Forall hasResource rsss)
/\ (Forall hasResource rsss -> e <> Panicked)
/\ (Forall hasResource rsss -> (length (spansOf rsss) <= room ch)%nat ->
    e = Completed).
Proof.
revert ch. induction rsss as [|rss rest IH]; intros ch; simpl.
- intros [= <- <-]. split; [apply progress_nil|].
  split; [apply firstn_all|]. split; [lia|].
  split; [intros _; split; [lia | constructor]|].
  split; [discriminate | reflexivity].
- destruct (collectortrace.Resource rss) as [res|] eqn:Eres.
  + set (ch0 := {| sent := _; store := _; room := _ |}).
    destruct (processLibraries p (length (store ch)) ch0
                (collectortrace.LibrarySpans rss)) as [e1 ch1] eqn:E1.
    apply processLibraries_spec in E1 as (P1 & L1 & T1 & N1 & C1).
    assert (length (store ch1) = S (length (store ch))) as Hlen.
    { rewrite L1. unfold ch0. cbn [store]. rewrite length_app. simpl. lia. }
    assert (take (length (store ch)) (store ch1) = store ch) as Htake.
    { rewrite T1 by lia. unfold ch0. cbn [store]. apply take_app_length. }
    assert (progress p (length (store ch))
              (length (store ch) + S (length rest)) ch ch1 e1
              (concat (map collectortrace.Spans
                           (collectortrace.LibrarySpans rss)))) as P1'.
    { eapply progress_widen; [| |exact P1]; lia. }
    assert (hasResource rss) as Hres by (unfold hasResource; congruence).
    unfold spansOf. cbn [map concat]. fold (spansOf rest).
    destruct e1.
    * intros H. apply IH in H as (P2 & T2 & L2 & C2 & N2 & R2).
      split.
      { eapply progress_seq; [exact P1'|].
        eapply progress_widen; [| |exact P2]; lia. }
      split.
      { replace (length (store ch))
          with (min (length (store ch)) (length (store ch1))) at 1 by lia.
        now rewrite <- take_take, T2. }
      split; [lia|].
      split.
      { intros E. destruct (C2 E) as [Hl Hf].
        split; [lia | now constructor]. }
      split.
      { intros Hf. apply N2. now inversion Hf. }
      intros Hf Hl. apply R2; [now inversion Hf|].
      pose proof (progress_room _ _ _ _ _ _ P1) as Hr.
      change (room ch0) with (room ch) in Hr.
      rewrite length_app in Hl. lia.
    * now destruct N1.
    * intros [= <- <-].
      split; [apply progress_stop; [exact P1' | discriminate]|].
      split; [exact Htake|]. split; [lia|].
      split; [discriminate|]. split; [discriminate|].
      intros _ Hl. rewrite length_app in Hl.
      assert (Blocked = Completed) by (apply C1; cbn [room ch0]; lia).
      discriminate.
  + intros [= <- <-]. split.
    { apply progress_stuck; discriminate. }
    split; [apply firstn_all|]. split; [lia|].
    split; [discriminate|].
    split; intros Hf; inversion Hf as [|? ? Hr _]; subst;
      now destruct Hr.
Qed.

(** A run that panics has completed the ResourceSpans before one that has
    no resource, and has stopped there. *)
Lemma process_Panicked (p : bunapp.Project)
  (rsss : list collectortrace.ResourceSpans) (ch ch' : chanState) :
process p rsss ch = (Panicked, ch') ->
exists before rss after,
  rsss = before ++ rss :: after
  /\ collectortrace.Resource rss = None
  /\ process p before ch = (Completed, ch').
Proof.
revert ch. induction rsss as [|rss rest IH]; intros ch; simpl;
  [discriminate|].
destruct (collectortrace.Resource rss) as [res|] eqn:Eres.
- destruct (processLibraries _ _ _ _) as [e1 ch1] eqn:E1.
  destruct e1.
  + intros H. apply IH in H as (b & r & a & -> & Hr & Hb).
    exists (rss :: b), r, a. split; [reflexivity|]. split; [exact Hr|].
    simpl. now rewrite Eres, E1.
  + apply processLibraries_spec in E1 as (_ & _ & _ & N1 & _).
    now destruct N1.
  + discriminate.
- intros [= <-]. exists [], rss, rest. auto.
Qed.

End IngressFacts.

Section IngressClaims.
Variable ParseDSN : string -> org.DSN + error.
Variable Quote : string -> string.
Variable Projects : list bunapp.Project.

Lemma find_none_iff (token : string) :
List.find (fun p => bool_decide (bunapp.Token p = token)) Projects = None
<-> forall p, p ∈ Projects -> bunapp.Token p <> token.
Proof.
induction Projects as [|q l IH]; simpl.
- split; [intros _ p Hp; inversion Hp | reflexivity].
- destruct (bool_decide (bunapp.Token q = token)) eqn:E.
  + apply bool_decide_eq_true in E. split; [discriminate|].
    intros H. exfalso. apply (H q); [constructor | exact E].
  + apply bool_decide_eq_false in E. rewrite IH. split.
    * intros H p Hp. apply elem_of_cons in Hp as [->|Hp]; auto.
    * intros H p Hp. apply H. now constructor.
Qed.

Lemma find_some (token : string) (p : bunapp.Project) :
List.find (fun p => bool_decide (bunapp.Token p = token)) Projects = Some p ->
p ∈ Projects /\ bunapp.Token p = token.
Proof.
intros H. apply find_some in H as (Hin & Ht).
apply bool_decide_eq_true in Ht. split; [|exact Ht].
now apply list_elem_of_In.
Qed.

(** C4 (amended): Export fails with the gRPC status code Cancelled when
    the incoming context is already cancelled.  When the transport
    metadata is absent or the uptrace-dsn header is missing it fails with
    a plain error, "metadata is empty" or "uptrace-dsn header is
    required", that carries no gRPC status (its code reads Unknown); when
    the DSN token matches no configured project it fails with a plain
    error whose message holds the quoted token.  With a token of a
    configured project, a request whose ResourceSpans all carry a
    resource, and a channel that takes the spans of the request, it
    returns an empty success response and no error. *)
Theorem C4_export_outcomes (ctx : Context)
  (req : collectortrace.ExportTraceServiceRequest) (ch : Ingress.chanState) :
let out := Ingress.Export ParseDSN Quote Projects ctx req ch in
(ctxErr ctx = Some context.Canceled ->
 exists msg,
   out = Ingress.Returned (None, Some (StatusError codes.Canceled msg), ch)
   /\ status.Code (Ingress.errorOf out) = codes.Canceled)
/\ (ctxErr ctx <> Some context.Canceled ->
    (incoming ctx = None ->
     out = Ingress.Returned (None, Some (PlainError "metadata is empty"), ch)
     /\ status.Code (Ingress.errorOf out) = codes.Unknown)
    /\ (forall md, incoming ctx = Some md ->
        metadata.Get md "uptrace-dsn" = [] ->
        out = Ingress.Returned
                (None, Some (PlainError "uptrace-dsn header is required"), ch)
        /\ status.Code (Ingress.errorOf out) = codes.Unknown)
    /\ (forall md dsnStr more dsn,
        incoming ctx = Some md ->
        metadata.Get md "uptrace-dsn" = dsnStr :: more ->
        dsnStr <> "" ->
        ParseDSN dsnStr = inl dsn ->
        org.Token dsn <> "" ->
        ((forall p, p ∈ Projects -> bunapp.Token p <> org.Token dsn) ->
         out = Ingress.Returned
                 (None,
                  Some (PlainError ("project with token "
                                    +:+ Quote (org.Token dsn)
                                    +:+ " not found")),
                  ch)
         /\ status.Code (Ingress.errorOf out) = codes.Unknown)
        /\ ((exists p, p ∈ Projects /\ bunapp.Token p = org.Token dsn) ->
            Forall Ingress.hasResource (collectortrace.Resources req) ->
            (length (Ingress.spansOf (collectortrace.Resources req))
             <= Ingress.room ch)%nat ->
            exists p ch',
              p ∈ Projects /\ bunapp.Token p = org.Token dsn
              /\ Ingress.process p (collectortrace.Resources req) ch
                 = (Ingress.Completed, ch')
              /\ out = Ingress.Returned
                         (Some collectortrace.EmptyResponse, None, ch')))).
Proof.
cbv zeta. unfold Ingress.Export. split.
- intros ->. eexists. split; reflexivity.
- intros Hc.
  assert (forall X (a b : X),
            match ctxErr ctx with
            | Some context.Canceled => a
            | _ => b
            end = b) as Hskip.
  { intros X a b. destruct (ctxErr ctx) as [[]|]; congruence. }
  rewrite !Hskip. clear Hskip. split; [|split].
  + intros ->. split; reflexivity.
  + intros md -> ->. split; reflexivity.
  + intros md dsnStr more dsn -> -> Hne Hparse Htok.
    unfold Ingress.findProjectByDSN.
    rewrite decide_False by exact Hne. rewrite Hparse.
    rewrite decide_False by exact Htok. split.
    * intros Hnone. apply find_none_iff in Hnone. rewrite Hnone.
      split; reflexivity.
    * intros (q & Hq & Hqt) Hres Hroom.
      destruct (List.find _ Projects) as [p|] eqn:Hfind.
      -- apply find_some in Hfind as (Hp & Hpt).
         destruct (Ingress.process p (collectortrace.Resources req) ch)
           as [e ch'] eqn:E.
         pose proof (IngressFacts.process_spec _ _ _ _ _ E)
           as (_ & _ & _ & _ & _ & Hdone).
         pose proof (Hdone Hres Hroom) as ->. exists p, ch'.
         split; [exact Hp|]. split; [exact Hpt|].
         split; [exact E | reflexivity].
      -- exfalso. rewrite find_none_iff in Hfind. now apply (Hfind q).
Qed.

End IngressClaims.

(** C4 as stated fails: without transport metadata, without the header
    and with an unknown token the error is a plain error, so that its
    status code is Unknown, not InvalidArgument or NotFound. *)
Lemma C4_counterexample :
let missing :=
  Ingress.errorOf
    (Samples.export Samples.noMetadata Samples.request Samples.emptyChan) in
let unknown :=
  Ingress.errorOf
    (Samples.export (Samples.withDSN "http://nobody@localhost:14317/7")
       Samples.request Samples.emptyChan) in
missing = Some (PlainError "metadata is empty")
/\ status.Code missing <> codes.InvalidArgument
/\ status.Code unknown <> codes.NotFound.
Proof. vm_compute. repeat split; discriminate. Qed.

Lemma C4_witness :
exists p ch',
  p ∈ [Samples.proj] /\ bunapp.Token p = "secret"
  /\ Ingress.process p (collectortrace.Resources Samples.request)
       Samples.emptyChan
     = (Ingress.Completed, ch')
  /\ Samples.export (Samples.withDSN "http://secret@localhost:14317/7")
       Samples.request Samples.emptyChan
     = Ingress.Returned (Some collectortrace.EmptyResponse, None, ch').
Proof.
destruct (C4_export_outcomes Ingress.sampleParseDSN Ingress.sampleQuote
            [Samples.proj] (Samples.withDSN "http://secret@localhost:14317/7")
            Samples.request Samples.emptyChan) as (_ & H).
destruct (H ltac:(discriminate)) as (_ & _ & Hdsn).
destruct (Hdsn _ "http://secret@localhost:14317/7" []
            {| org.Token := "secret" |} eq_refl)
  as (_ & Hok).
- vm_compute. reflexivity.
- discriminate.
- vm_compute. reflexivity.
- discriminate.
- apply Hok.
  + exists Samples.proj. split; [constructor | reflexivity].
  + repeat constructor; discriminate.
  + vm_compute. lia.
Defined.

Example export_enqueues :
map Ingress.item_resource
    (Ingress.sent
       (Ingress.chanOf
          (Samples.export (Samples.withDSN "http://secret@localhost:14317/7")
             Samples.request Samples.emptyChan)))
= [0; 0]%nat.
Proof. vm_compute. reflexivity. Qed.

(** * Further properties of the code *)

(** ** Fingerprinter *)

Lemma HasPrefix_refl (s : string) : HasPrefix s s = true.
Proof.
unfold HasPrefix. apply bool_decide_eq_true.
induction s as [|c s IH]; [reflexivity|]. simpl. now rewrite IH.
Qed.

Lemma HasPrefix_nil (s : string) : HasPrefix s "" = true.
Proof. unfold HasPrefix. apply bool_decide_eq_true. now destruct s. Qed.

Lemma ruleOf_root (m : AttrMap) (p p' : Z) (kind : string) :
(p = 0 <-> p' = 0) -> ruleOf m p kind = ruleOf m p' kind.
Proof.
intros H. unfold ruleOf.
repeat (destruct (decide _); try reflexivity); tauto.
Qed.

Section FingerprinterMore.
Context `{tk : sqlparser.Tokenizer}.

(** Every built span has a System: it is "internal" or it begins with the
    tag of the rule that matched, and it is never empty. *)
Theorem system_is_tagged (item : otlpSpan) :
let s := System (buildSpan item) in
s <> ""
/\ (s = "internal" \/ HasPrefix s "rpc:" = true
    \/ HasPrefix s "messaging:" = true \/ HasPrefix s "db:" = true
    \/ HasPrefix s "http:" = true \/ HasPrefix s "service:" = true).
Proof.
cbv zeta. rewrite buildSpan_System.
destruct (itemRule item); cbn [systemOf];
  (split; [rewrite ?append_cons; discriminate|]);
  rewrite ?HasPrefix_append; tauto.
Qed.

(** System and GroupID depend on the wire span only through its kind, its
    name, whether it has a parent, and the merged attributes: the ids,
    the timestamps, the status, the events, the links and the project do
    not reach the fingerprint. *)
Theorem fingerprint_inputs (a b : otlpSpan) :
tracepb.Span.Kind (wire a) = tracepb.Span.Kind (wire b) ->
tracepb.Span.Name (wire a) = tracepb.Span.Name (wire b) ->
(otlpSpanID (tracepb.Span.ParentSpanId (wire a)) = 0
 <-> otlpSpanID (tracepb.Span.ParentSpanId (wire b)) = 0) ->
mergedAttrs a = mergedAttrs b ->
System (buildSpan a) = System (buildSpan b)
/\ GroupID (buildSpan a) = GroupID (buildSpan b).
Proof.
intros Hk Hn Hp Hm.
rewrite !buildSpan_System, !buildSpan_GroupID. unfold itemRule.
rewrite Hk, Hn, Hm. rewrite (ruleOf_root _ _ _ _ Hp). split; reflexivity.
Qed.

(** [assignSystemAndGroupID] writes System, and it writes Name exactly
    when the db rule applies and db.statement is not empty: Name is then
    the statement, and in every other case it is what it was.  Every other
    field of the span is left alone, and the digest is only appended to:
    the System string, then the db-specific extras. *)
Theorem assign_frame (span : Span) (digest : xxhash.Digest) :
let out := assignSystemAndGroupID span digest in
let attrs := Attrs span in
let stmt := AttrMap.Text attrs xattr.DBStatement in
let r := ruleOf attrs (ParentID span) (Kind span) in
(ProjectID out.1 = ProjectID span /\ ID out.1 = ID span
 /\ ParentID out.1 = ParentID span /\ TraceID out.1 = TraceID span
 /\ Kind out.1 = Kind span /\ GroupID out.1 = GroupID span
 /\ Time out.1 = Time span /\ Duration out.1 = Duration span
 /\ StatusCode out.1 = StatusCode span
 /\ StatusMessage out.1 = StatusMessage span
 /\ Attrs out.1 = Attrs span /\ Events out.1 = Events span
 /\ Links out.1 = Links span)
/\ System out.1 = systemOf r attrs
/\ (AttrMap.Text attrs xattr.RPCSystem = "" ->
    AttrMap.Text attrs xattr.MessagingSystem = "" ->
    AttrMap.Text attrs xattr.DBSystem <> "" ->
    stmt <> "" ->
    Name out.1 = stmt)
/\ (AttrMap.Text attrs xattr.RPCSystem <> ""
    \/ AttrMap.Text attrs xattr.MessagingSystem <> ""
    \/ AttrMap.Text attrs xattr.DBSystem = ""
    \/ stmt = "" ->
    Name out.1 = Name span)
/\ out.2 = digest +:+ System out.1 +:+ dbExtras r attrs
/\ exists extras, out.2 = digest +:+ System out.1 +:+ extras.
Proof.
cbv zeta. rewrite assign_spec. cbn [fst snd].
split; [|split; [|split; [|split; [|split]]]].
- destruct (ruleOf _ _ _); try (repeat split; reflexivity).
  destruct (decide _); repeat split; reflexivity.
- destruct (ruleOf _ _ _);
    first [reflexivity | destruct (decide _); reflexivity].
- intros H1 H2 H3 H4. unfold ruleOf.
  rewrite (decide_False (P := AttrMap.Text _ xattr.RPCSystem <> ""))
    by (intros H; now apply H).
  rewrite (decide_False (P := AttrMap.Text _ xattr.MessagingSystem <> ""))
    by (intros H; now apply H).
  rewrite (decide_True (P := AttrMap.Text _ xattr.DBSystem <> ""))
    by exact H3.
  now rewrite decide_True by exact H4.
- intros H. unfold ruleOf.
  destruct (decide (AttrMap.Text _ xattr.RPCSystem <> "")) as [|H1];
    [reflexivity|].
  destruct (decide (AttrMap.Text _ xattr.MessagingSystem <> "")) as [|H2];
    [reflexivity|].
  destruct (decide (AttrMap.Text _ xattr.DBSystem <> "")) as [H3|H3].
  + destruct (decide (AttrMap.Text _ xattr.DBStatement <> "")) as [H4|H4];
      [|reflexivity].
    exfalso. destruct H as [H|[H|[H|H]]]; auto.
  + destruct (_ || _); [reflexivity|]. now destruct (decide _).
- destruct (ruleOf _ _ _);
    first [reflexivity | destruct (decide _); reflexivity].
- eexists. reflexivity.
Qed.

Lemma systemOf_db_prefix (r : rule) (attrs : AttrMap) :
HasPrefix (systemOf r attrs) "db:"
= match r with RuleDB => true | _ => false end.
Proof.
destruct r; cbn [systemOf];
  first [apply HasPrefix_append
        | unfold HasPrefix; rewrite ?append_cons; reflexivity].
Qed.

(** The Name of a built span is db.statement exactly when the db rule
    applies (System begins with "db:") and the statement is not empty, and
    the wire name in every other case. *)
Theorem name_rewritten_only_by_statement (item : otlpSpan) :
let sp := buildSpan item in
let stmt := AttrMap.Text (Attrs sp) xattr.DBStatement in
(HasPrefix (System sp) "db:" = true -> stmt <> "" -> Name sp = stmt)
/\ (HasPrefix (System sp) "db:" = false \/ stmt = "" ->
    Name sp = tracepb.Span.Name (wire item)).
Proof.
cbv zeta. rewrite buildSpan_Name, buildSpan_System, buildSpan_Attrs.
rewrite systemOf_db_prefix. cbv zeta.
destruct (itemRule item); (split; [try discriminate | try reflexivity]).
- intros _ H. now rewrite decide_True by exact H.
- intros [H|H]; [discriminate|]. rewrite decide_False; [reflexivity|].
  intros H'. now apply H'.
Qed.

(** Outside the db rule neither db.sql.table nor db.statement reaches the
    fingerprint: GroupID is the hash of Kind, Name and System. *)
Theorem group_id_outside_db (item : otlpSpan) :
let sp := buildSpan item in
HasPrefix (System sp) "db:" = false ->
GroupID sp = xxhash.Sum64 (Kind sp +:+ Name sp +:+ System sp).
Proof.
cbv zeta.
rewrite buildSpan_GroupID, buildSpan_Name, buildSpan_System, buildSpan_Kind.
unfold fingerprint.
destruct (itemRule item); cbn [systemOf dbExtras]; intros H;
  rewrite ?append_nil_r; try reflexivity.
rewrite HasPrefix_append in H. discriminate.
Qed.

End FingerprinterMore.

Section FingerprinterMoreRuns.
Import SampleSQL.

Lemma fingerprint_inputs_witness :
System (buildSpan (Samples.sqlSpan "SELECT 1"))
= System (buildSpan MoreSamples.sqlSpanElsewhere)
/\ GroupID (buildSpan (Samples.sqlSpan "SELECT 1"))
   = GroupID (buildSpan MoreSamples.sqlSpanElsewhere).
Proof.
apply fingerprint_inputs.
- reflexivity.
- reflexivity.
- vm_compute. split; reflexivity.
- vm_compute. reflexivity.
Defined.

(** A span that ends up renamed, and one that keeps its name. *)
Example name_rewritten_runs :
Name (buildSpan (Samples.sqlSpan "SELECT 1")) = "SELECT 1"
/\ Name (buildSpan (Samples.sqlSpan "")) = "query"
/\ Name (buildSpan Samples.grpcSpan) = "Get".
Proof. vm_compute. repeat split. Qed.

Lemma group_id_outside_db_witness :
GroupID (buildSpan Samples.homeSpan)
= xxhash.Sum64 ("server" +:+ "GET /home" +:+ "service:web").
Proof.
apply (group_id_outside_db Samples.homeSpan). vm_compute. reflexivity.
Defined.

End FingerprinterMoreRuns.

(** ** Events *)

(** The name that [joinTypeMessage] builds always starts with the type,
    and joining the type to it once more changes nothing. *)
Theorem joinTypeMessage_starts_with_type (typ msg : string) :
HasPrefix (joinTypeMessage typ msg) typ = true
/\ joinTypeMessage typ (joinTypeMessage typ msg) = joinTypeMessage typ msg.
Proof.
assert (forall r, r <> "" -> HasPrefix r typ = true ->
                  joinTypeMessage typ r = r) as Hfix.
{ intros r Hr Hp. unfold joinTypeMessage.
  rewrite decide_False by exact Hr. now rewrite Hp. }
unfold joinTypeMessage at 1 3 4.
destruct (decide (msg = "")) as [->|Hm].
- destruct (decide (typ = "")) as [->|Ht]; [split; reflexivity|].
  split; [apply HasPrefix_refl|]. apply Hfix; [exact Ht | apply HasPrefix_refl].
- destruct (HasPrefix msg typ) eqn:Hp.
  + split; [exact Hp | now apply Hfix].
  + split; [apply HasPrefix_append|]. apply Hfix; [|apply HasPrefix_append].
    destruct typ; [rewrite append_nil_l|]; rewrite append_cons; discriminate.
Qed.

(** With an empty message the joined name is the type, with an empty type
    it is the message. *)
Theorem joinTypeMessage_empty (s : string) :
joinTypeMessage s "" = s /\ joinTypeMessage "" s = s.
Proof.
unfold joinTypeMessage. split.
- rewrite decide_True by reflexivity. now destruct (decide (s = "")).
- destruct (decide (s = "")) as [->|H]; [reflexivity|].
  now rewrite HasPrefix_nil.
Qed.

Lemma eventName_ext (s1 s2 : Span) (event : SpanEvent.t) :
Name s1 = Name s2 -> eventName s1 event = eventName s2 event.
Proof. intros H. unfold eventName. now rewrite H. Qed.

Lemma newSpanEvent_ext (s1 s2 : Span) (e : tracepb.Span_Event.t) :
Name s1 = Name s2 -> newSpanEvent s1 e = newSpanEvent s2 e.
Proof.
intros H. unfold newSpanEvent. now rewrite (eventName_ext s1 s2 _ H).
Qed.

Lemma newSpanEvent_Attrs_Time (span : Span) (e : tracepb.Span_Event.t) :
SpanEvent.Attrs (newSpanEvent span e)
= otlpAttrs (tracepb.Span_Event.Attributes e)
/\ SpanEvent.Time (newSpanEvent span e)
   = Bits.int64 (tracepb.Span_Event.TimeUnixNano e).
Proof. unfold newSpanEvent. destruct (decide _); split; reflexivity. Qed.

Lemma eventName_other (span : Span) (event : SpanEvent.t) :
SpanEvent.Name event <> logEventType ->
SpanEvent.Name event <> exceptionEventType ->
SpanEvent.Name event <> messageEventType ->
eventName span event = "".
Proof.
intros H1 H2 H3. unfold eventName. now rewrite !decide_False by assumption.
Qed.

Section EventsMore.
Context `{tk : sqlparser.Tokenizer}.

(** The events of a built span are made from the wire events with the
    wire name of the span, whatever the db rule does to the name later. *)
Lemma buildSpan_Events (item : otlpSpan) :
Events (buildSpan item)
= map (newSpanEvent (set_Name (tracepb.Span.Name (wire item)) zeroSpan))
      (tracepb.Span.Events (wire item)).
Proof.
unfold buildSpan, newSpan. rewrite copyAttrs_id, assign_spec. cbv zeta.
cbn [Attrs ParentID Kind].
destruct (ruleOf _ _ _); try destruct (decide _);
  cbn [Events set_GroupID set_System set_Name];
  apply map_ext; intros e; apply newSpanEvent_ext; reflexivity.
Qed.

(** Building a span keeps its events: as many as on the wire, in the same
    order, each with the attributes and the time of the wire event, and
    with the wire name unless the event is a log, exception or message
    event. *)
Theorem events_are_kept (item : otlpSpan) :
let sp := buildSpan item in
length (Events sp) = length (tracepb.Span.Events (wire item))
/\ forall i e,
     tracepb.Span.Events (wire item) !! i = Some e ->
     exists ev,
       Events sp !! i = Some ev
       /\ SpanEvent.Attrs ev = otlpAttrs (tracepb.Span_Event.Attributes e)
       /\ SpanEvent.Time ev = Bits.int64 (tracepb.Span_Event.TimeUnixNano e)
       /\ (tracepb.Span_Event.Name e <> "log" ->
           tracepb.Span_Event.Name e <> "exception" ->
           tracepb.Span_Event.Name e <> "message" ->
           SpanEvent.Name ev = tracepb.Span_Event.Name e).
Proof.
cbv zeta. rewrite buildSpan_Events. split; [apply length_map|].
intros i e Hi. eexists. split.
- change (map ?f ?l) with (f <$> l). rewrite list_lookup_fmap, Hi. reflexivity.
- destruct (newSpanEvent_Attrs_Time
              (set_Name (tracepb.Span.Name (wire item)) zeroSpan) e)
    as [Ha Ht].
  split; [exact Ha|]. split; [exact Ht|].
  intros H1 H2 H3. unfold newSpanEvent.
  rewrite eventName_other by assumption.
  rewrite decide_False by (intros H; now apply H). reflexivity.
Qed.

(** A message event is named after the name the span has on the wire,
    also when the db rule replaces the name of the span afterwards. *)
Theorem message_event_uses_wire_name (item : otlpSpan) (i : nat)
  (e : tracepb.Span_Event.t) :
tracepb.Span.Events (wire item) !! i = Some e ->
tracepb.Span_Event.Name e = "message" ->
AttrMap.Text (otlpAttrs (tracepb.Span_Event.Attributes e))
  xattr.MessagingOperation <> "" ->
SpanEvent.Name <$> Events (buildSpan item) !! i
= Some (tracepb.Span.Name (wire item) +:+ " "
        +:+ AttrMap.Text (otlpAttrs (tracepb.Span_Event.Attributes e))
              xattr.MessagingOperation).
Proof.
intros Hi Hn Hop. rewrite buildSpan_Events.
change (map ?f ?l) with (f <$> l). rewrite list_lookup_fmap, Hi.
cbn [fmap option_fmap option_map]. f_equal.
unfold newSpanEvent, eventName. cbn [SpanEvent.Name SpanEvent.Attrs].
rewrite Hn. cbn [decide]. 
rewrite (decide_False (P := "message" = logEventType)) by discriminate.
rewrite (decide_False (P := "message" = exceptionEventType)) by discriminate.
rewrite (decide_True (P := "message" = messageEventType)) by reflexivity.
rewrite !(decide_True (P := AttrMap.Text _ xattr.MessagingOperation <> ""))
  by exact Hop.
cbn [Name set_Name].
rewrite decide_True; [reflexivity|].
destruct (tracepb.Span.Name (wire item));
  [rewrite append_nil_l|]; rewrite append_cons; discriminate.
Qed.

End EventsMore.

Section EventsRuns.
Import SampleSQL.

Lemma message_event_witness :
Name (buildSpan MoreSamples.messageSpan) = "INSERT INTO outbox VALUES (1)"
/\ SpanEvent.Name <$> Events (buildSpan MoreSamples.messageSpan) !! 0%nat
   = Some "orders send".
Proof.
split; [vm_compute; reflexivity|].
apply (message_event_uses_wire_name MoreSamples.messageSpan 0
         (tracepb.Span_Event.Make "message" 1200
            [("messaging.operation", VString "send")])).
- reflexivity.
- reflexivity.
- vm_compute. discriminate.
Defined.

End EventsRuns.

(** ** Index projection *)

Section IndexMore.
Variable asString : AttrValue -> string.

(** AttrKeys and AttrValues are parallel: no key occurs twice, and the
    value at the position of a key is the truncated rendering of what
    Attrs holds under that key. *)
Theorem attr_arrays_are_parallel (span : Span) :
let ix := newSpanIndex asString span in
NoDup (AttrKeys ix)
/\ forall i k,
     AttrKeys ix !! i = Some k ->
     exists v, Attrs span !! k = Some v
               /\ AttrValues ix !! i = Some (truncate (asString v) 200).
Proof.
cbv zeta. unfold newSpanIndex. cbn [AttrKeys AttrValues].
rewrite attrKeysAndValues_eq. cbn [fst snd]. split.
- apply NoDup_fst_map_to_list.
- intros i k Hk. rewrite list_lookup_fmap in Hk.
  destruct (map_to_list (Attrs span) !! i) as [[k' v]|] eqn:E;
    [|discriminate].
  injection Hk as <-. exists v. split.
  + apply elem_of_map_to_list. eapply list_elem_of_lookup_2. exact E.
  + change (map ?f ?l) with (f <$> l). now rewrite list_lookup_fmap, E.
Qed.

(** Up to 255 events the event count is exact. *)
Theorem event_count_exact (span : Span) :
(length (Events span) <= 255)%nat ->
EventCount (newSpanIndex asString span) = Z.of_nat (length (Events span)).
Proof.
intros H. unfold newSpanIndex. cbn [EventCount]. unfold Bits.u8.
apply Z.mod_small. lia.
Qed.

End IndexMore.

Section IndexMoreRuns.
Import SampleSQL.

Lemma event_count_exact_witness :
EventCount (newSpanIndex Samples.renderString
              (buildSpan (Samples.eventfulItem 255)))
= Z.of_nat (length (Events (buildSpan (Samples.eventfulItem 255)))).
Proof.
apply event_count_exact. vm_compute. lia.
Defined.

End IndexMoreRuns.

(** ** Ingress handler *)

(** Whatever way a run of [process] ends, the items it has sent are behind
    what the channel held, they carry the project and refer to resource
    maps of this run, and their spans are the first spans of the request
    in the order of the request.  A run that completes has sent all of
    them.  A run that panics has met a ResourceSpans without a resource
    and has sent the spans of the ResourceSpans before it, no more.  A run
    that stays blocked has used up the room of the channel.  A run over
    ResourceSpans that all have a resource, on a channel that takes all
    their spans, completes. *)
Theorem process_sends_in_order (p : bunapp.Project)
  (rsss : list collectortrace.ResourceSpans) (ch : Ingress.chanState) :
let e := (Ingress.process p rsss ch).1 in
let ch' := (Ingress.process p rsss ch).2 in
exists new,
  Ingress.sent ch' = Ingress.sent ch ++ new
  /\ Forall (fun it =>
               Ingress.item_project it = p
               /\ (length (Ingress.store ch) <= Ingress.item_resource it
                   < length (Ingress.store ch) + length rsss)%nat) new
  /\ map Ingress.item_span new `prefix_of` Ingress.spansOf rsss
  /\ (e = Ingress.Completed ->
      map Ingress.item_span new = Ingress.spansOf rsss
      /\ Forall Ingress.hasResource rsss)
  /\ (e = Ingress.Panicked ->
      exists before rss after,
        rsss = before ++ rss :: after
        /\ collectortrace.Resource rss = None
        /\ Forall Ingress.hasResource before
        /\ map Ingress.item_span new = Ingress.spansOf before)
  /\ (e = Ingress.Blocked ->
      length new = Ingress.room ch /\ Ingress.room ch' = 0%nat)
  /\ (Forall Ingress.hasResource rsss ->
      (length (Ingress.spansOf rsss) <= Ingress.room ch)%nat ->
      e = Ingress.Completed).
Proof.
cbv zeta. destruct (Ingress.process p rsss ch) as [e ch'] eqn:E.
cbn [fst snd].
destruct (IngressFacts.process_spec _ _ _ _ _ E)
  as ((new & Hs & Hr & Hf & Hp & Hc & Hb) & _ & _ & Hres & _ & Hdone).
exists new. split; [exact Hs|]. split; [exact Hf|]. split; [exact Hp|].
split; [|split; [|split; [|exact Hdone]]].
- intros He. split; [now apply Hc | now apply Hres].
- intros ->.
  destruct (IngressFacts.process_Panicked _ _ _ _ E)
    as (before & rss & after & -> & Hnone & Hbefore).
  exists before, rss, after. split; [reflexivity|]. split; [exact Hnone|].
  destruct (IngressFacts.process_spec _ _ _ _ _ Hbefore)
    as ((new' & Hs' & _ & _ & _ & Hc' & _) & _ & _ & Hres' & _).
  split; [now apply Hres'|].
  rewrite Hs in Hs'. apply app_inv_head in Hs'. subst new'.
  now apply Hc'.
- intros He. specialize (Hb He). lia.
Qed.

(** [process] never touches the resource maps that were there before the
    call, and it adds at most one map for each ResourceSpans: exactly one
    for each when it completes. *)
Theorem process_store_grows (p : bunapp.Project)
  (rsss : list collectortrace.ResourceSpans) (ch : Ingress.chanState) :
let e := (Ingress.process p rsss ch).1 in
let ch' := (Ingress.process p rsss ch).2 in
take (length (Ingress.store ch)) (Ingress.store ch') = Ingress.store ch
/\ (length (Ingress.store ch) <= length (Ingress.store ch')
    <= length (Ingress.store ch) + length rsss)%nat
/\ (e = Ingress.Completed ->
    length (Ingress.store ch')
    = (length (Ingress.store ch) + length rsss)%nat).
Proof.
cbv zeta. destruct (Ingress.process p rsss ch) as [e ch'] eqn:E.
cbn [fst snd].
destruct (IngressFacts.process_spec _ _ _ _ _ E)
  as (_ & Ht & Hl & Hc & _).
split; [exact Ht|]. split; [exact Hl|]. intros He. now apply Hc.
Qed.

Lemma processLibrary_cell (p : bunapp.Project) (ref : nat)
  (ch : Ingress.chanState) (ils : collectortrace.InstrumentationLibrarySpans)
  (m : AttrMap) :
Ingress.store ch !! ref = Some m ->
exists m',
  Ingress.store (Ingress.processLibrary p ref ch ils).2 !! ref = Some m'
  /\ m' !! xattr.OtelLibraryName
     = Some (VString (collectortrace.GetName (collectortrace.Library ils)))
  /\ forall k, k <> xattr.OtelLibraryName -> k <> xattr.OtelLibraryVersion ->
               m' !! k = m !! k.
Proof.
intros H.
destruct (Ingress.processLibrary p ref ch ils) as [e ch'] eqn:E.
unfold Ingress.processLibrary in E.
apply IngressFacts.sendSpans_spec in E as (_ & Hs & _).
cbn [snd]. rewrite Hs.
destruct (decide _); cbn [Ingress.store Ingress.setResource];
  rewrite !list_lookup_alter_eq, H; cbn [fmap option_fmap option_map];
  eexists; (split; [reflexivity|]); split.
- rewrite lookup_insert_ne by discriminate. apply lookup_insert_eq.
- intros k H1 H2. now rewrite !lookup_insert_ne by congruence.
- apply lookup_insert_eq.
- intros k H1 H2. now rewrite lookup_insert_ne by congruence.
Qed.

Lemma libraries_cell (p : bunapp.Project) (ref : nat)
  (libs : list collectortrace.InstrumentationLibrarySpans)
  (ch : Ingress.chanState) (m : AttrMap) :
Ingress.store ch !! ref = Some m ->
exists m',
  Ingress.store (Ingress.processLibraries p ref ch libs).2 !! ref = Some m'
  /\ forall k, k <> xattr.OtelLibraryName -> k <> xattr.OtelLibraryVersion ->
               m' !! k = m !! k.
Proof.
revert ch m. induction libs as [|ils libs IH]; intros ch m H; simpl.
- exists m. split; [exact H | reflexivity].
- destruct (processLibrary_cell p ref ch ils m H) as (m1 & H1 & _ & Hk1).
  destruct (Ingress.processLibrary p ref ch ils) as [e1 ch1].
  cbn [snd] in H1.
  destruct e1; try (exists m1; split; [exact H1 | exact Hk1]).
  destruct (IH _ _ H1) as (m' & H' & Hk').
  exists m'. split; [exact H'|]. intros k Hn Hv.
  now rewrite Hk', Hk1.
Qed.

Lemma processLibraries_snoc (p : bunapp.Project) (ref : nat)
  (libs : list collectortrace.InstrumentationLibrarySpans)
  (last : collectortrace.InstrumentationLibrarySpans)
  (ch ch' : Ingress.chanState) :
Ingress.processLibraries p ref ch (libs ++ [last]) = (Ingress.Completed, ch') ->
exists ch1,
  Ingress.processLibraries p ref ch libs = (Ingress.Completed, ch1)
  /\ Ingress.processLibrary p ref ch1 last = (Ingress.Completed, ch').
Proof.
revert ch. induction libs as [|ils libs IH]; intros ch; simpl.
- destruct (Ingress.processLibrary p ref ch last) as [[] c] eqn:E;
    intros [= <-]. exists ch. split; [reflexivity | exact E].
- destruct (Ingress.processLibrary p ref ch ils) as [[] c] eqn:E;
    try discriminate.
  apply IH.
Qed.

(** The spans of one ResourceSpans all refer to one shared map, and when
    [process] has completed, that map holds the name of the last
    instrumentation library: the name written for an earlier library is
    overwritten.  Beside the two otel.library keys the map holds the
    resource attributes. *)
Theorem shared_resource_holds_last_library (p : bunapp.Project)
  (rss : collectortrace.ResourceSpans) (res : resourcepb.Resource)
  (libs : list collectortrace.InstrumentationLibrarySpans)
  (last : collectortrace.InstrumentationLibrarySpans)
  (ch ch' : Ingress.chanState) :
collectortrace.Resource rss = Some res ->
collectortrace.LibrarySpans rss = libs ++ [last] ->
Ingress.process p [rss] ch = (Ingress.Completed, ch') ->
Forall (fun it => Ingress.item_resource it = length (Ingress.store ch))
       (drop (length (Ingress.sent ch)) (Ingress.sent ch'))
/\ exists m,
     Ingress.store ch' !! length (Ingress.store ch) = Some m
     /\ m !! xattr.OtelLibraryName
        = Some (VString
                  (collectortrace.GetName (collectortrace.Library last)))
     /\ forall k,
          k <> xattr.OtelLibraryName -> k <> xattr.OtelLibraryVersion ->
          m !! k = otlpAttrs (resourcepb.Attributes res) !! k.
Proof.
intros Hres Hlibs E. split.
- destruct (IngressFacts.process_spec _ _ _ _ _ E)
    as ((new & Hs & _ & Hf & _) & _).
  rewrite Hs, drop_app_length.
  eapply Forall_impl; [exact Hf|]. intros it [_ Hr]. simpl in Hr. lia.
- simpl in E. rewrite Hres, Hlibs in E.
  set (ch0 := {| Ingress.sent := _; Ingress.store := _; Ingress.room := _ |})
    in E.
  destruct (Ingress.processLibraries p _ ch0 (libs ++ [last]))
    as [[] c] eqn:E1; try discriminate.
  injection E as ->.
  apply processLibraries_snoc in E1 as (ch1 & E1 & E2).
  assert (Ingress.store ch0 !! length (Ingress.store ch)
          = Some (otlpAttrs (resourcepb.Attributes res))) as H0.
  { unfold ch0. cbn [Ingress.store]. apply list_lookup_middle. reflexivity. }
  destruct (libraries_cell p _ libs ch0 _ H0) as (m1 & H1 & Hk1).
  rewrite E1 in H1. cbn [snd] in H1.
  destruct (processLibrary_cell p _ _ last m1 H1) as (m & Hm & Hname & Hk).
  rewrite E2 in Hm. cbn [snd] in Hm.
  exists m. split; [exact Hm|]. split; [exact Hname|].
  intros k Hn Hv. now rewrite Hk, Hk1.
Qed.

Lemma shared_resource_witness :
let ch' :=
  (Ingress.process Samples.proj [MoreSamples.twoLibraries]
     Samples.emptyChan).2 in
Forall (fun it => Ingress.item_resource it = 0%nat)
       (drop 0 (Ingress.sent ch'))
/\ exists m,
     Ingress.store ch' !! 0%nat = Some m
     /\ m !! xattr.OtelLibraryName = Some (VString "otelhttp")
     /\ forall k,
          k <> xattr.OtelLibraryName -> k <> xattr.OtelLibraryVersion ->
          m !! k = otlpAttrs [("service.name", VString "api")] !! k.
Proof.
apply (shared_resource_holds_last_library Samples.proj
         MoreSamples.twoLibraries
         {| resourcepb.Attributes := [("service.name", VString "api")] |}
         [ {| collectortrace.Library :=
                Some {| collectortrace.Name := "otelsql";
                        collectortrace.Version := "1.2" |};
              collectortrace.Spans := [wire (Samples.sqlSpan "SELECT 1")] |} ]
         {| collectortrace.Library :=
              Some {| collectortrace.Name := "otelhttp";
                      collectortrace.Version := "" |};
            collectortrace.Spans := [wire Samples.homeSpan] |}
         Samples.emptyChan).
- reflexivity.
- reflexivity.
- vm_compute. reflexivity.
Defined.

(** The version of an earlier library stays in the shared map when a
    later library has none. *)
Example library_version_is_sticky :
(Ingress.store
   (Ingress.process Samples.proj [MoreSamples.twoLibraries]
      Samples.emptyChan).2 !! 0%nat)
≫= (fun m => m !! xattr.OtelLibraryVersion)
= Some (VString "1.2").
Proof. vm_compute. reflexivity. Qed.

(** A ResourceSpans without a resource makes the call panic, after the
    spans of the ResourceSpans before it are sent; a channel without room
    leaves it blocked. *)
Example export_panics :
exists ch',
  Samples.export (Samples.withDSN "http://secret@localhost:14317/7")
    MoreSamples.resourceless Samples.emptyChan
  = Ingress.Panics ch'
  /\ length (Ingress.sent ch') = 2%nat.
Proof. eexists. vm_compute. split; reflexivity. Qed.

Example export_blocks :
exists ch',
  Samples.export (Samples.withDSN "http://secret@localhost:14317/7")
    Samples.request MoreSamples.fullChan
  = Ingress.Blocks ch'
  /\ length (Ingress.sent ch') = 1%nat.
Proof. eexists. vm_compute. split; reflexivity. Qed.

Lemma find_first {A} (f : A -> bool) (l : list A) (x : A) :
List.find f l = Some x ->
exists l1 l2, l = l1 ++ x :: l2 /\ f x = true
              /\ forall y, y ∈ l1 -> f y = false.
Proof.
induction l as [|a l IH]; simpl; [discriminate|].
destruct (f a) eqn:E.
- intros [= ->]. exists [], l. split; [reflexivity|]. split; [exact E|].
  intros y Hy. inversion Hy.
- intros H. destruct (IH H) as (l1 & l2 & -> & Hx & Hl1).
  exists (a :: l1), l2. split; [reflexivity|]. split; [exact Hx|].
  intros y Hy. apply elem_of_cons in Hy as [->|Hy]; auto.
Qed.

Section IngressMore.
Variable ParseDSN : string -> org.DSN + error.
Variable Quote : string -> string.
Variable Projects : list bunapp.Project.

Lemma findProjectByDSN_inl (dsnStr : string) (p : bunapp.Project) :
Ingress.findProjectByDSN ParseDSN Quote Projects dsnStr = inl p ->
dsnStr <> ""
/\ exists dsn,
     ParseDSN dsnStr = inl dsn
     /\ bunapp.Token p = org.Token dsn
     /\ bunapp.Token p <> ""
     /\ exists before after,
          Projects = before ++ p :: after
          /\ forall q, q ∈ before -> bunapp.Token q <> bunapp.Token p.
Proof.
unfold Ingress.findProjectByDSN.
destruct (decide (dsnStr = "")) as [|Hne]; [discriminate|].
destruct (ParseDSN dsnStr) as [dsn|e]; [|discriminate].
destruct (decide (org.Token dsn = "")) as [|Ht]; [discriminate|].
destruct (List.find _ Projects) as [q|] eqn:Hfind; [|discriminate].
intros [= ->]. split; [exact Hne|]. exists dsn.
apply find_first in Hfind as (l1 & l2 & Hl & Hp & Hl1).
apply bool_decide_eq_true in Hp.
split; [reflexivity|]. split; [exact Hp|]. split; [congruence|].
exists l1, l2. split; [exact Hl|]. intros q Hq.
specialize (Hl1 q Hq). apply bool_decide_eq_false in Hl1. congruence.
Qed.

(** A project that [findProjectByDSN] returns is the first configured
    project whose token is the token of the DSN, and that token is not
    empty: of two projects with one token only the first is ever found,
    and a project with an empty token never. *)
Theorem findProjectByDSN_first_match (dsnStr : string) (p : bunapp.Project) :
Ingress.findProjectByDSN ParseDSN Quote Projects dsnStr = inl p ->
dsnStr <> ""
/\ exists dsn,
     ParseDSN dsnStr = inl dsn
     /\ bunapp.Token p = org.Token dsn
     /\ bunapp.Token p <> ""
     /\ exists before after,
          Projects = before ++ p :: after
          /\ forall q, q ∈ before -> bunapp.Token q <> bunapp.Token p.
Proof. apply findProjectByDSN_inl. Qed.

(** The ways a call of Export can end. *)
Lemma Export_cases (ctx : Context)
  (req : collectortrace.ExportTraceServiceRequest) (ch : Ingress.chanState) :
let out := Ingress.Export ParseDSN Quote Projects ctx req ch in
(exists err, out = Ingress.Returned (None, Some err, ch))
\/ (exists p,
      p ∈ Projects
      /\ out
         = match Ingress.process p (collectortrace.Resources req) ch with
           | (Ingress.Completed, ch') =>
               Ingress.Returned (Some collectortrace.EmptyResponse, None, ch')
           | (Ingress.Panicked, ch') => Ingress.Panics ch'
           | (Ingress.Blocked, ch') => Ingress.Blocks ch'
           end).
Proof.
cbv zeta. unfold Ingress.Export.
destruct (ctxErr ctx) as [[]|]; try (left; eexists; reflexivity);
  (destruct (incoming ctx) as [md|]; [|left; eexists; reflexivity]);
  (destruct (metadata.Get md "uptrace-dsn") as [|dsn0 more];
   [left; eexists; reflexivity|]);
  (destruct (Ingress.findProjectByDSN _ _ _ dsn0) as [p|e] eqn:E;
   [|left; eexists; reflexivity]);
  right; exists p; (split; [|reflexivity]);
  apply findProjectByDSN_inl in E
    as (_ & _ & _ & _ & _ & l1 & l2 & -> & _);
  apply elem_of_app; right; constructor.
Qed.

(** A call of Export ends in one of four ways.  It returns an error, with
    no response and with the channel as it was.  Or, for a configured
    project, it returns the empty response and no error, with all the
    spans of the request sent; or it panics, which it does only when a
    ResourceSpans of the request has no resource; or it stays blocked in a
    send, with the room of the channel used up.  It never returns an error
    after sending anything, and never a response together with an
    error. *)
Theorem export_endings (ctx : Context)
  (req : collectortrace.ExportTraceServiceRequest) (ch : Ingress.chanState) :
let out := Ingress.Export ParseDSN Quote Projects ctx req ch in
(exists err, out = Ingress.Returned (None, Some err, ch))
\/ (exists p ch',
      p ∈ Projects
      /\ ((out = Ingress.Returned
                   (Some collectortrace.EmptyResponse, None, ch')
           /\ Ingress.process p (collectortrace.Resources req) ch
              = (Ingress.Completed, ch')
           /\ Forall Ingress.hasResource (collectortrace.Resources req))
          \/ (out = Ingress.Panics ch'
              /\ Ingress.process p (collectortrace.Resources req) ch
                 = (Ingress.Panicked, ch')
              /\ ~ Forall Ingress.hasResource (collectortrace.Resources req))
          \/ (out = Ingress.Blocks ch'
              /\ Ingress.process p (collectortrace.Resources req) ch
                 = (Ingress.Blocked, ch')
              /\ Ingress.room ch' = 0%nat))).
Proof.
cbv zeta. destruct (Export_cases ctx req ch) as [H|(p & Hp & H)];
  [left; exact H|]. right.
destruct (Ingress.process p (collectortrace.Resources req) ch)
  as [e ch'] eqn:E.
destruct (IngressFacts.process_spec _ _ _ _ _ E)
  as ((new & Hs & Hr & _ & Hpre & _ & Hb) & _ & _ & Hc & Hn & Hd).
exists p, ch'. split; [exact Hp|]. destruct e.
- left. split; [exact H|]. split; [exact E|]. now apply Hc.
- right. left. split; [exact H|]. split; [exact E|].
  intros Hf. now apply (Hn Hf).
- right. right. split; [exact H|]. split; [exact E|].
  now apply Hb.
Qed.

(** A call of Export that returns no error has sent every span of the
    request, in the order of the request, behind what the channel held,
    all for one configured project. *)
Theorem export_sends_all_spans (ctx : Context)
  (req : collectortrace.ExportTraceServiceRequest) (ch ch' : Ingress.chanState)
  (resp : option collectortrace.ExportTraceServiceResponse) :
Ingress.Export ParseDSN Quote Projects ctx req ch
= Ingress.Returned (resp, None, ch') ->
exists p new,
  p ∈ Projects
  /\ Ingress.sent ch' = Ingress.sent ch ++ new
  /\ map Ingress.item_span new
     = concat (map (fun rss =>
                      concat (map collectortrace.Spans
                                  (collectortrace.LibrarySpans rss)))
                   (collectortrace.Resources req))
  /\ Forall (fun it => Ingress.item_project it = p) new.
Proof.
intros Hok.
destruct (Export_cases ctx req ch) as [(err & E)|(p & Hp & E)];
  rewrite E in Hok; [discriminate|].
destruct (Ingress.process p (collectortrace.Resources req) ch)
  as [e c] eqn:Ep.
destruct e; try discriminate. injection Hok as _ ->.
destruct (IngressFacts.process_spec _ _ _ _ _ Ep)
  as ((new & Hs & _ & Hf & _ & Hc & _) & _).
exists p, new. split; [exact Hp|]. split; [exact Hs|].
split; [now apply Hc|].
eapply Forall_impl; [exact Hf|]. now intros it [H _].
Qed.

(** The failures of the DSN itself: an empty header value is rejected
    before the parser sees it, an error of the parser is returned as it
    is, and a DSN without a token is rejected with the quoted DSN in the
    message.  Nothing is sent in any of these cases. *)
Theorem export_rejects_bad_dsn (ctx : Context)
  (req : collectortrace.ExportTraceServiceRequest) (ch : Ingress.chanState)
  (md : gmap string (list string)) (dsnStr : string) (more : list string) :
ctxErr ctx <> Some context.Canceled ->
incoming ctx = Some md ->
metadata.Get md "uptrace-dsn" = dsnStr :: more ->
let out := Ingress.Export ParseDSN Quote Projects ctx req ch in
(dsnStr = "" ->
 out = Ingress.Returned
         (None, Some (PlainError "uptrace-dsn header can't be empty"), ch))
/\ (forall e, dsnStr <> "" -> ParseDSN dsnStr = inr e ->
              out = Ingress.Returned (None, Some e, ch))
/\ (forall dsn, dsnStr <> "" -> ParseDSN dsnStr = inl dsn ->
                org.Token dsn = "" ->
                out = Ingress.Returned
                        (None,
                         Some (PlainError ("dsn " +:+ Quote dsnStr
                                           +:+ " does not contain a token")),
                         ch)).
Proof.
intros Hc Hmd Hget. cbv zeta. unfold Ingress.Export.
rewrite Hmd, Hget. unfold Ingress.findProjectByDSN.
assert (forall X (a b : X),
          match ctxErr ctx with
          | Some context.Canceled => a
          | _ => b
          end = b) as Hskip.
{ intros X a b. destruct (ctxErr ctx) as [[]|]; congruence. }
rewrite Hskip. split; [|split].
- intros ->. reflexivity.
- intros e Hne He. rewrite decide_False by exact Hne. now rewrite He.
- intros dsn Hne Hd Ht. rewrite decide_False by exact Hne.
  rewrite Hd. now rewrite decide_True by exact Ht.
Qed.

End IngressMore.

Lemma findProjectByDSN_witness :
let p1 := {| bunapp.ID := 1; bunapp.Name := "Uptrace";
             bunapp.Token := "secret_token" |} in
"http://secret_token@localhost:14317/2" <> ""
/\ exists dsn,
     Ingress.sampleParseDSN "http://secret_token@localhost:14317/2" = inl dsn
     /\ bunapp.Token p1 = org.Token dsn
     /\ bunapp.Token p1 <> ""
     /\ exists before after,
          config.Projects MoreSamples.dockerConfig = before ++ p1 :: after
          /\ forall q, q ∈ before -> bunapp.Token q <> bunapp.Token p1.
Proof.
apply (findProjectByDSN_first_match Ingress.sampleParseDSN
         Ingress.sampleQuote (config.Projects MoreSamples.dockerConfig)).
vm_compute. reflexivity.
Defined.

Lemma export_rejects_bad_dsn_witness :
Samples.export (Samples.withDSN "") Samples.request Samples.emptyChan
= Ingress.Returned
    (None, Some (PlainError "uptrace-dsn header can't be empty"),
     Samples.emptyChan).
Proof.
destruct (export_rejects_bad_dsn Ingress.sampleParseDSN Ingress.sampleQuote
            [Samples.proj] (Samples.withDSN "") Samples.request
            Samples.emptyChan {[ "uptrace-dsn" := [""] ]} "" [])
  as (H & _).
- discriminate.
- reflexivity.
- vm_compute. reflexivity.
- apply H. reflexivity.
Defined.

Lemma export_sends_all_spans_witness :
exists p new,
  p ∈ [Samples.proj]
  /\ Ingress.sent
       (Ingress.chanOf
          (Samples.export (Samples.withDSN "http://secret@localhost:14317/7")
             Samples.request Samples.emptyChan))
     = Ingress.sent Samples.emptyChan ++ new
  /\ map Ingress.item_span new
     = concat (map (fun rss =>
                      concat (map collectortrace.Spans
                                  (collectortrace.LibrarySpans rss)))
                   (collectortrace.Resources Samples.request))
  /\ Forall (fun it => Ingress.item_project it = p) new.
Proof.
apply (export_sends_all_spans Ingress.sampleParseDSN Ingress.sampleQuote
         [Samples.proj] (Samples.withDSN "http://secret@localhost:14317/7")
         Samples.request Samples.emptyChan _
         (Some collectortrace.EmptyResponse)).
vm_compute. reflexivity.
Defined.

(** ** Batcher *)

(** After arrivals only, the buffer holds the remainder of the number of
    items by batchSize and every batch handed over is full. *)
Lemma run_arrivals (batchSize : nat) (items : list otlpSpan) :
(0 < batchSize)%nat ->
let st := Batcher.run batchSize (map Batcher.Recv items) Batcher.init in
length (Batcher.spans st) = (length items mod batchSize)%nat
/\ map length (Batcher.flushed st)
   = replicate (length items / batchSize) batchSize.
Proof.
intros Hb. cbv zeta. induction items as [|x items IH] using rev_ind.
- simpl. now rewrite Nat.Div0.mod_0_l, Nat.Div0.div_0_l.
- rewrite map_app. cbn [map]. rewrite BatcherFacts.run_snoc.
  destruct IH as [Hlen Hfl]. rewrite length_app. cbn [length].
  set (st := Batcher.run batchSize (map Batcher.Recv items) Batcher.init)
    in *.
  set (n := length items) in *.
  pose proof (Nat.div_mod_eq n batchSize) as Hn.
  pose proof (Nat.mod_upper_bound n batchSize ltac:(lia)) as Hlt.
  destruct (decide (S (length (Batcher.spans st)) = batchSize)) as [E|E].
  + rewrite BatcherFacts.onRecv_full by exact E. cbn [Batcher.spans
      Batcher.flushed].
    assert ((n + 1) mod batchSize = 0)%nat as ->.
    { symmetry. apply (Nat.mod_unique _ _ (S (n / batchSize))); lia. }
    assert ((n + 1) / batchSize = S (n / batchSize))%nat as ->.
    { symmetry. apply (Nat.div_unique _ _ _ 0); lia. }
    split; [reflexivity|].
    rewrite map_app, Hfl, replicate_S_end. cbn [map]. rewrite length_app.
    cbn [length]. do 2 f_equal. lia.
  + rewrite BatcherFacts.onRecv_room by exact E. cbn [Batcher.spans
      Batcher.flushed].
    assert ((n + 1) mod batchSize = S (n mod batchSize))%nat as ->.
    { symmetry. apply (Nat.mod_unique _ _ (n / batchSize)); lia. }
    assert ((n + 1) / batchSize = n / batchSize)%nat as ->.
    { symmetry. apply (Nat.div_unique _ _ _ (S (n mod batchSize))); lia. }
    split; [|exact Hfl]. rewrite length_app. cbn [length]. lia.
Qed.

Lemma arrivals_not_Done (items : list otlpSpan) :
Forall (fun ev => Batcher.is_Done ev = false) (map Batcher.Recv items).
Proof. induction items; constructor; auto. Qed.

(** Fed n items and then the shutdown signal, and no timer in between,
    the loop hands over n / batchSize full batches and then, when
    batchSize does not divide n, one batch with the n mod batchSize items
    that are left. *)
Theorem arrivals_make_full_batches (batchSize : nat) (items : list otlpSpan) :
(0 < batchSize)%nat ->
exists batches,
  Batcher.processLoop batchSize (map Batcher.Recv items ++ [Batcher.Done])
  = Some batches
  /\ map length batches
     = replicate (length items / batchSize) batchSize
       ++ (if decide (length items mod batchSize = 0)%nat then []
           else [(length items mod batchSize)%nat]).
Proof.
intros Hb. eexists. split.
- unfold Batcher.processLoop.
  apply BatcherFacts.loop_until_Done, arrivals_not_Done.
- rewrite BatcherFacts.drain_eq, map_app.
  destruct (run_arrivals batchSize items Hb) as [Hlen Hfl].
  rewrite Hfl. f_equal.
  destruct (decide (Batcher.spans _ = [])) as [E|E].
  + rewrite E in Hlen. simpl in Hlen. now rewrite decide_True by lia.
  + rewrite decide_False.
    * cbn [map]. now rewrite Hlen.
    * rewrite <- Hlen. destruct (Batcher.spans _); [congruence|simpl; lia].
Qed.

(** No batch that the loop hands over is empty, and none has more than
    batchSize items. *)
Theorem batches_are_bounded (batchSize : nat)
  (evs rest : list Batcher.event) (batches : list (list otlpSpan)) :
(0 < batchSize)%nat ->
Forall (fun ev => Batcher.is_Done ev = false) evs ->
Batcher.processLoop batchSize (evs ++ Batcher.Done :: rest) = Some batches ->
Forall (fun b => (0 < length b <= batchSize)%nat) batches.
Proof.
intros Hb Hevs. unfold Batcher.processLoop.
rewrite BatcherFacts.loop_until_Done by exact Hevs.
intros [= <-]. rewrite BatcherFacts.drain_eq.
destruct (BatcherFacts.inv_run batchSize evs Hb) as (Hlen & _ & Hall).
apply Forall_app. split; [exact Hall|].
destruct (decide _) as [E|E]; constructor; [|constructor].
destruct (Batcher.spans _); [congruence | simpl in *; lia].
Qed.

(** A timer that fires twice in a row flushes at most once: the second
    fire finds the buffer empty and hands nothing over. *)
Theorem timer_twice_flushes_once (batchSize : nat) (evs : list Batcher.event) :
(0 < batchSize)%nat ->
let st := Batcher.run batchSize evs Batcher.init in
Batcher.onTimer batchSize (Batcher.onTimer batchSize st)
= Batcher.onTimer batchSize st.
Proof.
intros Hb st.
destruct (BatcherFacts.inv_run batchSize evs Hb) as (Hlen & _ & _).
fold st in Hlen.
destruct (Batcher.spans st) as [|x l] eqn:E.
- rewrite (BatcherFacts.onTimer_empty batchSize st Hb E).
  apply (BatcherFacts.onTimer_empty batchSize st Hb E).
- rewrite (BatcherFacts.onTimer_nonempty batchSize st)
    by (rewrite E in *; simpl in *; lia).
  now apply BatcherFacts.onTimer_empty.
Qed.

Lemma arrivals_witness :
exists batches,
  Batcher.processLoop 2 (map Batcher.Recv (MoreSamples.items 5)
                         ++ [Batcher.Done])
  = Some batches
  /\ map length batches = [2; 2; 1]%nat.
Proof.
destruct (arrivals_make_full_batches 2 (MoreSamples.items 5))
  as (batches & H1 & H2); [lia|].
exists batches. split; [exact H1 | exact H2].
Defined.

Lemma batches_are_bounded_witness :
Forall (fun b => (0 < length b <= 2)%nat)
  [[Samples.sqlSpan "SELECT 1"; Samples.sqlSpan "SELECT 2"];
   [Samples.sqlSpan "SELECT 3"]; [Samples.sqlSpan "SELECT 4"]].
Proof.
apply (batches_are_bounded 2 Samples.arrivals []).
- lia.
- repeat constructor.
- reflexivity.
Defined.

Lemma timer_twice_witness :
let st := Batcher.run 2 Samples.arrivals Batcher.init in
Batcher.onTimer 2 (Batcher.onTimer 2 st) = Batcher.onTimer 2 st.
Proof. apply (timer_twice_flushes_once 2 Samples.arrivals). lia. Defined.

(** ** Flusher *)

Section FlusherMore.
Context `{tk : sqlparser.Tokenizer}.
Variable asString : AttrValue -> string.
Variable marshalSpan : Span -> string.
Variable exec : Flusher.insert -> option error.

Lemma buildRows_fold (l : list otlpSpan) (r : Flusher.rows) :
foldl (fun r item =>
         let span := buildSpan item in
         {| Flusher.spans := Flusher.spans r ++ [span];
            Flusher.index :=
              Flusher.index r ++ [newSpanIndex asString span];
            Flusher.data :=
              Flusher.data r ++ [Flusher.newSpanData marshalSpan span] |})
      r l
= {| Flusher.spans := Flusher.spans r ++ map buildSpan l;
     Flusher.index :=
       Flusher.index r
       ++ map (fun item => newSpanIndex asString (buildSpan item)) l;
     Flusher.data :=
       Flusher.data r
       ++ map (fun item => Flusher.newSpanData marshalSpan (buildSpan item))
              l |}.
Proof.
revert r. induction l as [|item l IH]; intros r; simpl.
- rewrite !app_nil_r. now destruct r.
- rewrite IH. cbn [Flusher.spans Flusher.index Flusher.data].
  now rewrite <- !app_assoc.
Qed.

(** A flush issues two inserts whatever the store answers, the data rows
    first and the index rows second, each with one row for every item of
    the batch; the rows at one position describe the same span, built
    from the item at that position, with the id of the item's project. *)
Theorem flush_rows_are_aligned (batch : list otlpSpan) :
let r := Flusher.buildRows asString marshalSpan batch in
(Flusher.flushSpans asString marshalSpan exec batch).1
= [Flusher.InsertData (Flusher.data r); Flusher.InsertIndex (Flusher.index r)]
/\ length (Flusher.data r) = length batch
/\ length (Flusher.index r) = length batch
/\ forall i item,
     batch !! i = Some item ->
     exists ix d,
       Flusher.index r !! i = Some ix
       /\ Flusher.data r !! i = Some d
       /\ index_Span ix = buildSpan item
       /\ ProjectID (index_Span ix) = bunapp.ID (project item)
       /\ SpanData.ID d = ID (index_Span ix)
       /\ SpanData.TraceID d = TraceID (index_Span ix)
       /\ SpanData.ParentID d = ParentID (index_Span ix)
       /\ SpanData.Time d = Time (index_Span ix)
       /\ SpanData.Data d = marshalSpan (index_Span ix).
Proof.
cbv zeta. unfold Flusher.buildRows. rewrite buildRows_fold.
cbn [Flusher.spans Flusher.index Flusher.data app].
split; [|split; [|split]].
- unfold Flusher.flushSpans, Flusher.buildRows. rewrite buildRows_fold.
  reflexivity.
- apply length_map.
- apply length_map.
- intros i item Hi.
  change (map ?f ?l) with (f <$> l). rewrite !list_lookup_fmap, Hi.
  do 2 eexists. split; [reflexivity|]. split; [reflexivity|].
  cbn [index_Span newSpanIndex Flusher.newSpanData SpanData.ID
       SpanData.TraceID SpanData.ParentID SpanData.Time SpanData.Data].
  rewrite buildSpan_ProjectID. repeat split; reflexivity.
Qed.

(** The log gets one line for each insert that the store refuses, with
    the name of the table, data before index; a refused data insert does
    not keep the index insert from being logged on its own. *)
Theorem flush_logs_each_failure (batch : list otlpSpan) :
let r := Flusher.buildRows asString marshalSpan batch in
map Flusher.log_table (Flusher.flushSpans asString marshalSpan exec batch).2
= match exec (Flusher.InsertData (Flusher.data r)) with
  | Some _ => ["spans_data"]
  | None => []
  end
  ++ match exec (Flusher.InsertIndex (Flusher.index r)) with
     | Some _ => ["spans_index"]
     | None => []
     end.
Proof.
cbv zeta. unfold Flusher.flushSpans, Flusher.logFailure. cbn [snd].
rewrite map_app.
destruct (exec (Flusher.InsertData _)), (exec (Flusher.InsertIndex _));
  reflexivity.
Qed.

End FlusherMore.

(** ** Configuration *)

Section ConfigMore.
Variable Abs : string -> string + error.
Variable ReadFile : string -> string + error.
Variable Unmarshal : string -> config.AppConfig + error.
Variable SplitHostPort : string -> (string * string) + error.

Lemma ReadConfig_inv (file service : string) (cfg : config.AppConfig) :
config.ReadConfig Abs ReadFile Unmarshal SplitHostPort file service = inl cfg ->
exists path b decoded h hp g gp,
  Abs file = inl path /\ ReadFile path = inl b /\ Unmarshal b = inl decoded
  /\ config.Users decoded <> [] /\ config.Projects decoded <> []
  /\ SplitHostPort (config.Listen_HTTP decoded) = inl (h, hp)
  /\ SplitHostPort (config.Listen_GRPC decoded) = inl (g, gp)
  /\ cfg
     = config.setGRPC
         (if decide (g = "") then config.Site_Host decoded else g) gp
         (config.setHTTP
            (if decide (h = "") then config.Site_Host decoded else h) hp
            (config.setFile path service decoded)).
Proof.
unfold config.ReadConfig.
destruct (Abs file) as [path|] eqn:Ea; [|discriminate].
destruct (ReadFile path) as [b|] eqn:Er; [|discriminate].
destruct (Unmarshal b) as [decoded|] eqn:Ed; [|discriminate].
cbv zeta. cbn [config.Users config.Projects config.Listen_HTTP
               config.Listen_GRPC config.Site_Host config.setFile
               config.setHTTP].
destruct (decide (length (config.Users decoded) = 0%nat)) as [|Hu];
  [discriminate|].
destruct (decide (length (config.Projects decoded) = 0%nat)) as [|Hp];
  [discriminate|].
destruct (SplitHostPort (config.Listen_HTTP decoded)) as [[h hp]|] eqn:Eh;
  [|discriminate].
destruct (SplitHostPort (config.Listen_GRPC decoded)) as [[g gp]|] eqn:Eg;
  [|discriminate].
intros [= <-]. exists path, b, decoded, h, hp, g, gp.
assert (config.Users decoded <> []) as Hu'.
{ intros E. now rewrite E in Hu. }
assert (config.Projects decoded <> []) as Hp'.
{ intros E. now rewrite E in Hp. }
repeat (split; [first [reflexivity | assumption]|]). reflexivity.
Qed.

(** A configuration that [ReadConfig] returns has at least one user and
    at least one project; its Service is the one asked for, whatever the
    file says, its Filepath the absolute path, and its users and projects
    are those of the file. *)
Theorem ReadConfig_is_validated (file service : string)
  (cfg : config.AppConfig) :
config.ReadConfig Abs ReadFile Unmarshal SplitHostPort file service = inl cfg ->
config.Users cfg <> [] /\ config.Projects cfg <> []
/\ config.Service cfg = service
/\ Abs file = inl (config.Filepath cfg)
/\ exists b decoded,
     ReadFile (config.Filepath cfg) = inl b /\ Unmarshal b = inl decoded
     /\ config.Users cfg = config.Users decoded
     /\ config.Projects cfg = config.Projects decoded.
Proof.
intros H. apply ReadConfig_inv in H
  as (path & b & decoded & h & hp & g & gp & Ha & Hr & Hd & Hu & Hp & _ & _
      & ->).
cbn [config.Users config.Projects config.Service config.Filepath
     config.setGRPC config.setHTTP config.setFile].
repeat split; try assumption. exists b, decoded. auto.
Qed.

(** Both listen addresses of a returned configuration were split into
    host and port, and an address without a host listens on the host of
    the site. *)
Theorem ReadConfig_fills_hosts (file service : string)
  (cfg : config.AppConfig) :
config.ReadConfig Abs ReadFile Unmarshal SplitHostPort file service = inl cfg ->
exists h g,
  SplitHostPort (config.Listen_HTTP cfg) = inl (h, config.Listen_HTTPPort cfg)
  /\ SplitHostPort (config.Listen_GRPC cfg)
     = inl (g, config.Listen_GRPCPort cfg)
  /\ config.Listen_HTTPHost cfg
     = (if decide (h = "") then config.Site_Host cfg else h)
  /\ config.Listen_GRPCHost cfg
     = (if decide (g = "") then config.Site_Host cfg else g).
Proof.
intros H. apply ReadConfig_inv in H
  as (path & b & decoded & h & hp & g & gp & _ & _ & _ & _ & _ & Hh & Hg
      & ->).
exists h, g.
cbn [config.Listen_HTTP config.Listen_GRPC config.Listen_HTTPPort
     config.Listen_GRPCPort config.Listen_HTTPHost config.Listen_GRPCHost
     config.Site_Host config.setGRPC config.setHTTP config.setFile].
auto.
Qed.

(** A file without users is refused for that reason before anything else
    in it is looked at: the projects and the listen addresses do not
    matter. *)
Theorem ReadConfig_checks_users_first (file service path b : string)
  (decoded : config.AppConfig) :
Abs file = inl path -> ReadFile path = inl b -> Unmarshal b = inl decoded ->
config.Users decoded = [] ->
config.ReadConfig Abs ReadFile Unmarshal SplitHostPort file service
= inr (PlainError "config must contain at least one user").
Proof.
intros Ha Hr Hd Hu. unfold config.ReadConfig. rewrite Ha, Hr, Hd.
cbv zeta. cbn [config.Users config.setFile]. rewrite Hu. reflexivity.
Qed.

End ConfigMore.

Lemma ReadConfig_is_validated_witness :
exists cfg,
  MoreSamples.sampleRead "uptrace.yml" "serve" = inl cfg
  /\ config.Users cfg <> [] /\ config.Projects cfg <> []
  /\ config.Service cfg = "serve".
Proof.
destruct (MoreSamples.sampleRead "uptrace.yml" "serve") as [cfg|] eqn:E;
  [|vm_compute in E; discriminate E].
exists cfg. split; [reflexivity|].
destruct (ReadConfig_is_validated _ _ _ _ _ _ _ E) as (H1 & H2 & H3 & _).
auto.
Defined.

Lemma ReadConfig_fills_hosts_witness :
exists cfg,
  MoreSamples.sampleRead "uptrace.yml" "serve" = inl cfg
  /\ exists h g,
       MoreSamples.sampleSplit (config.Listen_HTTP cfg)
       = inl (h, config.Listen_HTTPPort cfg)
       /\ MoreSamples.sampleSplit (config.Listen_GRPC cfg)
          = inl (g, config.Listen_GRPCPort cfg)
       /\ config.Listen_HTTPHost cfg
          = (if decide (h = "") then config.Site_Host cfg else h)
       /\ config.Listen_GRPCHost cfg
          = (if decide (g = "") then config.Site_Host cfg else g).
Proof.
destruct (MoreSamples.sampleRead "uptrace.yml" "serve") as [cfg|] eqn:E;
  [|vm_compute in E; discriminate E].
exists cfg. split; [reflexivity|].
exact (ReadConfig_fills_hosts _ _ _ _ _ _ _ E).
Defined.

(** The example configuration listens on the host of the site. *)
Example docker_config_hosts :
match MoreSamples.sampleRead "uptrace.yml" "serve" with
| inl cfg =>
    config.SiteAddr cfg = "http://localhost:14318/"
    /\ config.GRPCEndpoint cfg Samples.proj = "http://localhost:14317"
| inr _ => False
end.
Proof. vm_compute. split; reflexivity. Qed.

Lemma ReadConfig_checks_users_first_witness :
config.ReadConfig MoreSamples.sampleAbs MoreSamples.sampleReadFile
  (fun _ => inl MoreSamples.brokenConfig) MoreSamples.sampleSplit
  "uptrace.yml" "serve"
= inr (PlainError "config must contain at least one user").
Proof.
apply (ReadConfig_checks_users_first MoreSamples.sampleAbs
         MoreSamples.sampleReadFile (fun _ => inl MoreSamples.brokenConfig)
         MoreSamples.sampleSplit "uptrace.yml" "serve" "/etc/uptrace.yml"
         "yaml" MoreSamples.brokenConfig);
  reflexivity.
Defined.
